(** * Hedera SDK: payload classes of the transaction life cycle

    A shallow embedding of

    - [src/token/TokenDissociateTransaction.js]
    - [src/contract/ContractExecuteTransaction.ts]

    JavaScript objects are records, methods that assign to [this] are
    computations over the record, [throw] is an explicit outcome, and a JS
    [Map] keyed by strings is a [gmap string _]. *)

From Stdlib Require Import ZArith String Ascii List Lia.
From stdpp Require Import base option list gmap strings pretty.

Local Open Scope string_scope.
Local Open Scope list_scope.

(** ** Thrown values *)

(** The errors a call can end in.  [Id] is the type of the entity ids an
    [InvalidChecksumError] names.  [ImportedError] is what a function of a
    module outside the files under study throws when it rejects its argument;
    it is known by the name of that function. *)
Inductive error (Id : Type) : Type :=
| FrozenTransactionError
| AlreadyFrozenError
| NoNodeIdsAvailable
| UnknownTransactionKind (tag : string)
| InvalidChecksumError (id : Id)
| ValidationError (errors : list string)
| TypeError
| ImportedError (origin : string).

Arguments FrozenTransactionError {Id}.
Arguments AlreadyFrozenError {Id}.
Arguments NoNodeIdsAvailable {Id}.
Arguments UnknownTransactionKind {Id} tag.
Arguments InvalidChecksumError {Id} id.
Arguments ValidationError {Id} errors.
Arguments TypeError {Id}.
Arguments ImportedError {Id} origin.

(** A call either returns a value or throws. *)
Inductive outcome (E A : Type) : Type :=
| Ok (a : A)
| Throw (e : E).

Arguments Ok {E A} a.
Arguments Throw {E A} e.

Definition is_ok {E A} (o : outcome E A) : bool :=
  match o with Ok _ => true | Throw _ => false end.

(** Pure code that may throw. *)
Definition obind {E A B} (o : outcome E A) (k : A -> outcome E B) : outcome E B :=
  match o with
  | Ok a => k a
  | Throw e => Throw e
  end.

(** [Array.prototype.map] with a callback that may throw: the first throw
    aborts the traversal. *)
Fixpoint omap {E A B} (f : A -> outcome E B) (l : list A) : outcome E (list B) :=
  match l with
  | [] => Ok []
  | x :: l' => obind (f x) (fun y => obind (omap f l') (fun ys => Ok (y :: ys)))
  end.

(** Code that reads and assigns a mutable store [S] and may throw.  The store
    a call leaves behind is returned also when it throws: assignments made
    before a [throw] stay. *)
Definition M (S E A : Type) : Type := S -> outcome E A * S.

Definition ret {S E A} (a : A) : M S E A := fun s => (Ok a, s).

Definition throw {S E A} (e : E) : M S E A := fun s => (Throw e, s).

Definition bind {S E A B} (c : M S E A) (k : A -> M S E B) : M S E B :=
  fun s =>
    match c s with
    | (Ok a, s') => k a s'
    | (Throw e, s') => (Throw e, s')
    end.

Definition get {S E} : M S E S := fun s => (Ok s, s).

(** A pure call inside such code. *)
Definition lift {S E A} (o : outcome E A) : M S E A := fun s => (o, s).

Definition modify {S E} (f : S -> S) : M S E unit := fun s => (Ok tt, f s).

Notation "'call' x <- c 'in' k" := (bind c (fun x => k))
  (at level 10, x name, c at level 100, k at level 200).
Notation "c1 ;> c2" := (bind c1 (fun _ => c2))
  (at level 90, right associativity).

(** The value of a call that returned, mapped. *)
Definition outcome_map {E A B} (f : A -> B) (o : outcome E A) : outcome E B :=
  match o with
  | Ok a => Ok (f a)
  | Throw e => Throw e
  end.

(** A setter that honours the frozen flag: on a frozen object it fails with
    [FrozenTransactionError] and leaves the payload as it was. *)
Definition fails_when_frozen {S Id P} (isFrozen : S -> bool) (payloadOf : S -> P)
    (setter : M S (error Id) unit) : Prop :=
  forall this : S,
    isFrozen this = true ->
    fst (setter this) = Throw FrozenTransactionError /\
    payloadOf (snd (setter this)) = payloadOf this.

(** A setter that always returns on an object that is not frozen. *)
Definition succeeds_when_not_frozen {S Id} (isFrozen : S -> bool)
    (setter : M S (error Id) unit) : Prop :=
  forall this : S, isFrozen this = false -> fst (setter this) = Ok tt.

(** ** What the classes import *)

(** [new Hbar(n)]: an amount of [n] hbar. *)
Inductive Hbar : Type := new_Hbar (amount : Z).

(** The modules [TokenDissociateTransaction.js] imports and that are not part
    of the files under study: entity ids ([TokenId.js], [AccountId.js]) with
    their conversions, the protobuf records of [@hashgraph/proto], and the
    client.  Each operation is taken at its declared type; [fromString]
    rejects a text that is not an id, so what it reads is given as a partial
    function ([TokenId_parse], [AccountId_parse]). *)
Class Sdk : Type := {
  TokenId : Type;
  AccountId : Type;
  ITokenID : Type;
  IAccountID : Type;
  TransactionId : Type;
  ITransaction : Type;
  ISignedTransaction : Type;
  ITransactionResponse : Type;
  Client : Type;
  (* TokenId.js *)
  TokenId_parse : string -> option TokenId;
  TokenId_clone : TokenId -> TokenId;
  TokenId_fromProtobuf : ITokenID -> TokenId;
  TokenId_toProtobuf : TokenId -> ITokenID;
  (* AccountId.js *)
  AccountId_parse : string -> option AccountId;
  AccountId_clone : AccountId -> AccountId;
  AccountId_fromProtobuf : IAccountID -> AccountId;
  AccountId_toProtobuf : AccountId -> IAccountID;
  (* does the checksum of the id agree with the client's network? *)
  TokenId_checksumMatches : TokenId -> Client -> bool;
  AccountId_checksumMatches : AccountId -> Client -> bool;
  (* the client's default node list *)
  Client_nodeAccountIds : Client -> list AccountId
}.

(** The identifier types round-trip through their wire form. *)
Class SdkLaws (sdk : Sdk) : Prop := {
  TokenId_roundtrip :
    forall p : ITokenID, TokenId_toProtobuf (TokenId_clone (TokenId_fromProtobuf p)) = p;
  AccountId_roundtrip :
    forall p : IAccountID, AccountId_toProtobuf (AccountId_clone (AccountId_fromProtobuf p)) = p
}.

(** Reading an id given as text, for the small instance below: the text is
    one or more runs of decimal digits separated by dots, and the id is the
    number the last run spells. *)
Definition digitOf (c : Ascii.ascii) : option Z :=
  let n := Z.of_nat (Ascii.nat_of_ascii c) in
  if Z.leb 48 n && Z.leb n 57 then Some (n - 48)%Z else None.

Fixpoint parseRuns (s : string) (run : option Z) : option Z :=
  match s with
  | EmptyString => run
  | String c s' =>
    if Ascii.eqb c "."%char
    then match run with
         | Some _ => parseRuns s' None
         | None => None
         end
    else match digitOf c with
         | Some d => parseRuns s' (Some (10 * match run with Some n => n | None => 0 end + d)%Z)
         | None => None
         end
  end.

Definition parseId (s : string) : option Z := parseRuns s None.

(** A small instance of the imports, on which the statements below can be
    evaluated: ids are numbers, their wire form is the number itself, an id
    given as text is read by [parseId], and a checksum matches when the id is
    not above the number that stands for the client's network. *)
Definition sdkZ : Sdk := {|
  TokenId := Z;
  AccountId := Z;
  ITokenID := Z;
  IAccountID := Z;
  TransactionId := Z;
  ITransaction := Z;
  ISignedTransaction := Z;
  ITransactionResponse := Z;
  Client := Z;
  TokenId_parse := parseId;
  TokenId_clone := fun i => i;
  TokenId_fromProtobuf := fun p => p;
  TokenId_toProtobuf := fun i => i;
  AccountId_parse := parseId;
  AccountId_clone := fun i => i;
  AccountId_fromProtobuf := fun p => p;
  AccountId_toProtobuf := fun i => i;
  TokenId_checksumMatches := fun i c => Z.leb i c;
  AccountId_checksumMatches := fun i c => Z.leb i c;
  Client_nodeAccountIds := fun c => if Z.leb c 0 then [] else [c]
|}.

(** ** TokenDissociateTransaction.js *)

(** [(TokenId | string)], [(AccountId | string)]: what a setter accepts. *)
Inductive IdLike (Id : Type) : Type :=
| IsString (s : string)
| IsId (id : Id).

Arguments IsString {Id} s.
Arguments IsId {Id} id.

Section TokenDissociate.
Context {sdk : Sdk}.

(** An entity id embedded in the payload: the account, or one of the tokens. *)
Inductive EntityId : Type :=
| OfAccount (id : AccountId)
| OfToken (id : TokenId).

Definition err : Type := error EntityId.

(** [TokenId.fromString(text)], [AccountId.fromString(text)]: the id the text
    spells; they throw when it spells none. *)
Definition TokenId_fromString (text : string) : outcome err TokenId :=
  match TokenId_parse text with
  | Some id => Ok id
  | None => Throw (ImportedError "TokenId.fromString")
  end.

Definition AccountId_fromString (text : string) : outcome err AccountId :=
  match AccountId_parse text with
  | Some id => Ok id
  | None => Throw (ImportedError "AccountId.fromString")
  end.

(** [proto.ITokenDissociateTransactionBody]: both fields may be absent
    ([null] and [undefined] are one case, as the source only tests
    [!= null]). *)
Record ITokenDissociateTransactionBody : Type := {
  tokens : option (list ITokenID);
  account : option IAccountID
}.

(** [proto.ITransactionBody].  The source reads its [tokenDissociate] case;
    the other fields are those the spec gives a body: the transaction id and
    the node it is addressed to, and the fee.  Only the case of this class is
    modelled. *)
Record ITransactionBody : Type := {
  transactionID : option TransactionId;
  nodeAccountID : option IAccountID;
  transactionFee : option Hbar;
  tokenDissociate : option ITokenDissociateTransactionBody
}.

(** [body.data]: the name of the [oneof] case that is set. *)
Definition data (body : ITransactionBody) : option string :=
  match tokenDissociate body with
  | Some _ => Some "tokenDissociate"
  | None => None
  end.

(** [body[tag] = payload]. *)
Definition set_data (tag : string) (payload : ITokenDissociateTransactionBody)
    (body : ITransactionBody) : ITransactionBody :=
  if String.eqb tag "tokenDissociate"
  then {| transactionID := transactionID body;
          nodeAccountID := nodeAccountID body;
          transactionFee := transactionFee body;
          tokenDissociate := Some payload |}
  else body.

(** *** The base class *)

(** Modelled from the spec: the state of [Transaction], whose file
    [Transaction.js] is not among the files under study.  It is the aggregate
    of the data model (transaction ids, node ids, signatures, frozen flag,
    maximum fee) and the bodies cached by [freeze]; the cache holds the bodies
    in decoded form, the codec being external. *)
Record Transaction : Type := {
  frozen : bool;
  transactionIds : list TransactionId;
  nodeIds : list AccountId;
  transactions : list ITransaction;
  signedTransactions : list ISignedTransaction;
  maxTransactionFee : option Hbar;
  bodyCache : list ITransactionBody
}.

(** Modelled from the spec: the constructor of [Transaction]; a transaction
    is created mutable, with nothing assigned. *)
Definition new_Transaction : Transaction := {|
  frozen := false;
  transactionIds := [];
  nodeIds := [];
  transactions := [];
  signedTransactions := [];
  maxTransactionFee := None;
  bodyCache := []
|}.

(** Modelled from the spec: [Transaction.prototype[symbols.requireNotFrozen]],
    the guard of the setter family; it fails with [FrozenTransactionError]
    once the transaction is frozen. *)
Definition Transaction_requireNotFrozen : M Transaction err unit :=
  call this <- get in
  if frozen this then throw FrozenTransactionError else ret tt.

(** Every (transaction id, node id) pair, chunk by chunk. *)
Definition envelopePairs (ids : list TransactionId) (nodes : list AccountId)
    : list (TransactionId * AccountId) :=
  list_prod ids nodes.

(** Modelled from the spec: [freeze(nodeIds, transactionId, maxFee-default)].
    The node list is the caller's or else the client's default one; an empty
    list fails with [NoNodeIdsAvailable], a second call without re-freeze
    intent with [AlreadyFrozenError].  Otherwise the node ids are assigned,
    the transaction id and the fee are assigned if not already set, the body
    of every pair is computed by the payload class ([makeBody]) and cached,
    and the flag is flipped; nothing is assigned when a step fails. *)
Definition Transaction_freeze
    (makeBody : Transaction -> TransactionId -> AccountId -> outcome err ITransactionBody)
    (nodes : list AccountId) (transactionId : TransactionId) (defaultFee : Hbar)
    (client : option Client) (refreeze : bool) : M Transaction err unit :=
  call this <- get in
  let candidates :=
    match nodes, client with
    | [], Some c => Client_nodeAccountIds c
    | _, _ => nodes
    end in
  match candidates with
  | [] => throw NoNodeIdsAvailable
  | _ :: _ =>
    if frozen this && negb refreeze then throw AlreadyFrozenError
    else
      let ids :=
        match transactionIds this with
        | [] => [transactionId]
        | _ :: _ => transactionIds this
        end in
      let fee :=
        match maxTransactionFee this with
        | None => Some defaultFee
        | Some f => Some f
        end in
      let assigned := {|
        frozen := frozen this;
        transactionIds := ids;
        nodeIds := candidates;
        transactions := transactions this;
        signedTransactions := signedTransactions this;
        maxTransactionFee := fee;
        bodyCache := bodyCache this
      |} in
      match omap (fun p => makeBody assigned (fst p) (snd p)) (envelopePairs ids candidates) with
      | Throw e => throw e
      | Ok bodies =>
        modify (fun _ => {|
          frozen := true;
          transactionIds := ids;
          nodeIds := candidates;
          transactions := transactions this;
          signedTransactions := signedTransactions this;
          maxTransactionFee := fee;
          bodyCache := bodies
        |})
      end
  end.

(** Modelled from the spec: [Transaction[symbols.fromProtobufTransactions]],
    the base-class half of [fromWire].  It stores the lists it is given and
    takes the fee from the first body; the bodies of a rehydrated transaction
    are fixed, so it is frozen. *)
Definition Transaction_fromProtobufTransactions (this : Transaction)
    (txs : list ITransaction) (signedTxs : list ISignedTransaction)
    (ids : list TransactionId) (nodes : list AccountId)
    (bodies : list ITransactionBody) : Transaction := {|
  frozen := true;
  transactionIds := ids;
  nodeIds := nodes;
  transactions := txs;
  signedTransactions := signedTxs;
  maxTransactionFee :=
    match bodies !! 0%nat with
    | Some body => transactionFee body
    | None => maxTransactionFee this
    end;
  bodyCache := bodies
|}.

(** *** The class *)

(** The object: the base-class state and the fields the constructor assigns.
    The elements of [_tokenIds] are nullable, as [validateChecksums] tests
    them. *)
Record TokenDissociateTransaction : Type := {
  super : Transaction;
  _tokenIds : option (list (option TokenId));
  _accountId : option AccountId;
  _defaultMaxTransactionFee : Hbar
}.

Definition with_super (b : Transaction) (this : TokenDissociateTransaction)
    : TokenDissociateTransaction := {|
  super := b;
  _tokenIds := _tokenIds this;
  _accountId := _accountId this;
  _defaultMaxTransactionFee := _defaultMaxTransactionFee this
|}.

Definition with_tokenIds (v : option (list (option TokenId)))
    (this : TokenDissociateTransaction) : TokenDissociateTransaction := {|
  super := super this;
  _tokenIds := v;
  _accountId := _accountId this;
  _defaultMaxTransactionFee := _defaultMaxTransactionFee this
|}.

Definition with_accountId (v : option AccountId)
    (this : TokenDissociateTransaction) : TokenDissociateTransaction := {|
  super := super this;
  _tokenIds := _tokenIds this;
  _accountId := v;
  _defaultMaxTransactionFee := _defaultMaxTransactionFee this
|}.

(** The payload: what the setters own. *)
Definition payload (this : TokenDissociateTransaction)
    : option (list (option TokenId)) * option AccountId :=
  (_tokenIds this, _accountId this).

(** [this[symbols.requireNotFrozen]()], inherited. *)
Definition requireNotFrozen : M TokenDissociateTransaction err unit :=
  fun this =>
    match Transaction_requireNotFrozen (super this) with
    | (r, b) => (r, with_super b this)
    end.

(** [get tokenIds()], [get accountId()]. *)
Definition tokenIds (this : TokenDissociateTransaction) := _tokenIds this.
Definition accountId (this : TokenDissociateTransaction) := _accountId this.

(** [setTokenIds(tokenIds)]; the returned [this] is the store.  The field is
    assigned once [map] has returned: a text that [fromString] rejects leaves
    it as it was. *)
Definition setTokenIds (tokenIds : list (IdLike TokenId))
    : M TokenDissociateTransaction err unit :=
  requireNotFrozen ;>
  call stored <- lift (omap (fun tokenId =>
    match tokenId with
    | IsString s => outcome_map Some (TokenId_fromString s)
    | IsId id => Ok (Some (TokenId_clone id))
    end) tokenIds) in
  modify (with_tokenIds (Some stored)).

(** [setAccountId(accountId)]. *)
Definition setAccountId (accountId : IdLike AccountId)
    : M TokenDissociateTransaction err unit :=
  requireNotFrozen ;>
  call stored <- lift
    match accountId with
    | IsString s => AccountId_fromString s
    | IsId id => Ok (AccountId_clone id)
    end in
  modify (with_accountId (Some stored)).

(** The constructor's [props]; [{}] is [noProps]. *)
Record Props : Type := {
  props_tokenIds : option (list (IdLike TokenId));
  props_accountId : option (IdLike AccountId)
}.

Definition noProps : Props := {| props_tokenIds := None; props_accountId := None |}.

(** [new TokenDissociateTransaction(props)]: the object, or what a setter
    called by the constructor throws. *)
Definition new_TokenDissociateTransaction (props : Props)
    : outcome err TokenDissociateTransaction :=
  let this := {|
    super := new_Transaction;
    _tokenIds := None;
    _accountId := None;
    _defaultMaxTransactionFee := new_Hbar 5
  |} in
  let body :=
    (match props_tokenIds props with
     | Some ids => setTokenIds ids
     | None => ret tt
     end) ;>
    (match props_accountId props with
     | Some id => setAccountId id
     | None => ret tt
     end) in
  match body this with
  | (Ok _, this') => Ok this'
  | (Throw e, _) => Throw e
  end.

(** [static [symbols.fromProtobuf](transactions, signedTransactions,
    transactionIds, nodeIds, bodies)].  Reading a property of [undefined]
    ([bodies[0]] of an empty list, [body.tokenDissociate] when the case is
    not set) is a [TypeError]. *)
Definition fromProtobuf (txs : list ITransaction) (signedTxs : list ISignedTransaction)
    (ids : list TransactionId) (nodes : list AccountId)
    (bodies : list ITransactionBody) : outcome err TokenDissociateTransaction :=
  match bodies !! 0%nat with
  | None => Throw TypeError
  | Some body =>
    match tokenDissociate body with
    | None => Throw TypeError
    | Some dissociateToken =>
      obind
        (new_TokenDissociateTransaction {|
           props_tokenIds :=
             match tokens dissociateToken with
             | Some ts => Some (map (fun token => IsId (TokenId_fromProtobuf token)) ts)
             | None => None
             end;
           props_accountId :=
             match account dissociateToken with
             | Some a => Some (IsId (AccountId_fromProtobuf a))
             | None => None
             end |})
        (fun tx =>
           Ok (with_super
                 (Transaction_fromProtobufTransactions (super tx) txs signedTxs ids nodes bodies)
                 tx))
    end
  end.

(** [for (const x of l) body(x)]: the first throw leaves the loop. *)
Fixpoint forOf {S E A} (l : list A) (body : A -> M S E unit) : M S E unit :=
  match l with
  | [] => ret tt
  | x :: l' => body x ;> forOf l' body
  end.

(** Modelled from the spec: [id.validateChecksum(client)] of [AccountId.js]
    and [TokenId.js], which are not among the files under study.  It fails
    with [InvalidChecksumError] naming the id when the checksum does not match
    the client's network.  The store is the list of the ids validation was
    invoked on, in order. *)
Definition AccountId_validateChecksum (id : AccountId) (client : Client)
    : M (list EntityId) err unit :=
  modify (fun invoked => invoked ++ [OfAccount id]) ;>
  if AccountId_checksumMatches id client then ret tt
  else throw (InvalidChecksumError (OfAccount id)).

(** Modelled from the spec: the same for a token id. *)
Definition TokenId_validateChecksum (id : TokenId) (client : Client)
    : M (list EntityId) err unit :=
  modify (fun invoked => invoked ++ [OfToken id]) ;>
  if TokenId_checksumMatches id client then ret tt
  else throw (InvalidChecksumError (OfToken id)).

(** [[symbols.validateChecksums](client)]. *)
Definition validateChecksums (this : TokenDissociateTransaction) (client : Client)
    : M (list EntityId) err unit :=
  (match _accountId this with
   | Some id => AccountId_validateChecksum id client
   | None => ret tt
   end) ;>
  forOf (match _tokenIds this with Some ids => ids | None => [] end)
    (fun tokenId =>
       match tokenId with
       | Some id => TokenId_validateChecksum id client
       | None => ret tt
       end).

(** A channel: one send operation per service and method name, acting on the
    transport [W]; [channel.token.dissociateTokens] is
    [channel "token" "dissociateTokens"]. *)
Definition Channel (W : Type) : Type :=
  string -> string -> ITransaction -> M W err ITransactionResponse.

(** [[symbols.execute](channel, request)]. *)
Definition execute {W} (channel : Channel W) (request : ITransaction)
    : M W err ITransactionResponse :=
  channel "token" "dissociateTokens" request.

(** A transport that records every send and answers from [ack]. *)
Definition Sent : Type := (string * string * ITransaction)%type.

Definition recording (ack : string -> string -> ITransaction -> ITransactionResponse)
    : Channel (list Sent) :=
  fun service method request =>
    modify (fun sent => sent ++ [(service, method, request)]) ;>
    ret (ack service method request).

(** [[symbols.getTransactionDataCase]()]. *)
Definition getTransactionDataCase (this : TokenDissociateTransaction) : string :=
  "tokenDissociate".

(** [[symbols.makeTransactionData]()].  Calling [toProtobuf] on a [null]
    element is a [TypeError]. *)
Definition makeTransactionData (this : TokenDissociateTransaction)
    : outcome err ITokenDissociateTransactionBody :=
  obind
    (match _tokenIds this with
     | Some ids =>
       obind (omap (fun tokenId =>
                      match tokenId with
                      | Some id => Ok (TokenId_toProtobuf id)
                      | None => Throw TypeError
                      end) ids)
             (fun ts => Ok (Some ts))
     | None => Ok None
     end)
    (fun ts =>
       Ok {| tokens := ts;
             account :=
               match _accountId this with
               | Some id => Some (AccountId_toProtobuf id)
               | None => None
               end |}).

(** Modelled from the spec: the body of one envelope, a function of the
    payload, the transaction id and the node id (and the fee); the payload goes
    under the case the class names.  [Transaction.js] builds it. *)
Definition makeTransactionBody (this : TokenDissociateTransaction)
    (transactionId : TransactionId) (node : AccountId) : outcome err ITransactionBody :=
  obind (makeTransactionData this) (fun payload =>
    Ok (set_data (getTransactionDataCase this) payload {|
          transactionID := Some transactionId;
          nodeAccountID := Some (AccountId_toProtobuf node);
          transactionFee :=
            Some match maxTransactionFee (super this) with
                 | Some fee => fee
                 | None => _defaultMaxTransactionFee this
                 end;
          tokenDissociate := None |})).

(** Modelled from the spec: the bodies of [toWireEnvelopes()], one per
    (transaction id, node id) pair. *)
Definition wireBodies (this : TokenDissociateTransaction)
    : outcome err (list ITransactionBody) :=
  omap (fun p => makeTransactionBody this (fst p) (snd p))
       (envelopePairs (transactionIds (super this)) (nodeIds (super this))).

(** Modelled from the spec: [freeze] on this class, the base operation with
    the bodies made from this payload. *)
Definition freeze (nodes : list AccountId) (transactionId : TransactionId)
    (client : option Client) (refreeze : bool) : M TokenDissociateTransaction err unit :=
  fun this =>
    match Transaction_freeze
            (fun b => makeTransactionBody (with_super b this))
            nodes transactionId (_defaultMaxTransactionFee this) client refreeze
            (super this) with
    | (r, b) => (r, with_super b this)
    end.

(** *** The payload registry *)

(** What a registered constructor returns: a transaction of this class, or one
    of a class that is not modelled, known by its case name and base state. *)
Inductive AnyTransaction : Type :=
| IsTokenDissociate (tx : TokenDissociateTransaction)
| IsOther (kind : string) (tx : Transaction).

(** The type of the [fromProtobuf] constructors the registry holds. *)
Definition FromProtobuf : Type :=
  list ITransaction -> list ISignedTransaction -> list TransactionId ->
  list AccountId -> list ITransactionBody -> outcome err AnyTransaction.

(** [TokenDissociateTransaction[symbols.fromProtobuf]], as a registry entry. *)
Definition TokenDissociateTransaction_fromProtobuf : FromProtobuf :=
  fun txs signedTxs ids nodes bodies =>
    obind (fromProtobuf txs signedTxs ids nodes bodies) (fun tx => Ok (IsTokenDissociate tx)).

(** The statement the module runs when it is loaded:
    [TRANSACTION_REGISTRY.set("tokenDissociate", ...)], on the registry as the
    modules loaded before left it. *)
Definition module_init (TRANSACTION_REGISTRY : gmap string FromProtobuf)
    : gmap string FromProtobuf :=
  <["tokenDissociate" := TokenDissociateTransaction_fromProtobuf]> TRANSACTION_REGISTRY.

(** Modelled from the spec: [constructFromWire(kindTag, decodedBody)] of the
    payload registry; it fails with [UnknownTransactionKind] if the tag has no
    registered constructor. *)
Definition constructFromWire (registry : gmap string FromProtobuf) (kindTag : string)
    : FromProtobuf :=
  fun txs signedTxs ids nodes bodies =>
    match (registry !! kindTag : option FromProtobuf) with
    | Some construct => construct txs signedTxs ids nodes bodies
    | None => Throw (UnknownTransactionKind kindTag)
    end.

(** Modelled from the spec: [fromWire(decodedBodies, transactionIds, nodeIds)];
    the constructor is the one registered for the case of the first body, and
    no signatures are carried. *)
Definition fromWire (registry : gmap string FromProtobuf)
    (bodies : list ITransactionBody) (ids : list TransactionId) (nodes : list AccountId)
    : outcome err AnyTransaction :=
  match bodies !! 0%nat with
  | None => Throw TypeError
  | Some body =>
    match data body with
    | None => Throw TypeError
    | Some kindTag => constructFromWire registry kindTag [] [] ids nodes bodies
    end
  end.

(** *** Vocabulary of the statements *)

(** What [setTokenIds] makes of each element it is given. *)
Definition tokenIdOf (tokenId : IdLike TokenId) : outcome err (option TokenId) :=
  match tokenId with
  | IsString s => outcome_map Some (TokenId_fromString s)
  | IsId id => Ok (Some (TokenId_clone id))
  end.

(** What [setAccountId] makes of its argument. *)
Definition accountIdOf (accountId : IdLike AccountId) : outcome err AccountId :=
  match accountId with
  | IsString s => AccountId_fromString s
  | IsId id => Ok (AccountId_clone id)
  end.

(** The ids embedded in the payload, in the order [validateChecksums] meets
    them: the account if there is one, then the tokens that are not [null]. *)
Definition embeddedTokens (ids : list (option TokenId)) : list EntityId :=
  flat_map (fun tokenId =>
              match tokenId with
              | Some id => [OfToken id]
              | None => []
              end) ids.

Definition embeddedIds (this : TokenDissociateTransaction) : list EntityId :=
  match _accountId this with
  | Some id => [OfAccount id]
  | None => []
  end ++
  embeddedTokens (match _tokenIds this with Some ids => ids | None => [] end).

(** Does the checksum of an embedded id match the client's network? *)
Definition checksumMatches (client : Client) (id : EntityId) : bool :=
  match id with
  | OfAccount a => AccountId_checksumMatches a client
  | OfToken t => TokenId_checksumMatches t client
  end.

(** The first id of a list whose checksum does not match, and the ids up to
    and including it. *)
Definition firstMismatch (client : Client) (ids : list EntityId) : option EntityId :=
  find (fun id => negb (checksumMatches client id)) ids.

Fixpoint throughFirstMismatch (client : Client) (ids : list EntityId) : list EntityId :=
  match ids with
  | [] => []
  | id :: ids' =>
    id :: (if checksumMatches client id then throughFirstMismatch client ids' else [])
  end.

(** The payload [fromProtobuf] builds from a decoded payload. *)
Definition payloadOfProtobuf (d : ITokenDissociateTransactionBody)
    : option (list (option TokenId)) * option AccountId :=
  (match tokens d with
   | Some ts => Some (map (fun token => Some (TokenId_clone (TokenId_fromProtobuf token))) ts)
   | None => None
   end,
   match account d with
   | Some a => Some (AccountId_clone (AccountId_fromProtobuf a))
   | None => None
   end).

(** What a run of validations over a list of ids ends in, and which
    validations it invoked. *)
Definition validated (client : Client) (ids : list EntityId) (invoked : list EntityId)
    : outcome err unit * list EntityId :=
  match firstMismatch client ids with
  | None => (Ok tt, invoked ++ ids)
  | Some id => (Throw (InvalidChecksumError id), invoked ++ throughFirstMismatch client ids)
  end.

(** The body of one envelope, once the payload is known. *)
Definition envelopeBody (fee : Hbar) (d : ITokenDissociateTransactionBody)
    (p : TransactionId * AccountId) : ITransactionBody := {|
  transactionID := Some (fst p);
  nodeAccountID := Some (AccountId_toProtobuf (snd p));
  transactionFee := Some fee;
  tokenDissociate := Some d
|}.

(** The fee a body carries. *)
Definition feeOf (this : TokenDissociateTransaction) : Hbar :=
  match maxTransactionFee (super this) with
  | Some fee => fee
  | None => _defaultMaxTransactionFee this
  end.

(** The node list [freeze] falls back on. *)
Definition defaultNodes (client : option Client) : list AccountId :=
  match client with
  | Some c => Client_nodeAccountIds c
  | None => []
  end.

End TokenDissociate.

(** ** ContractExecuteTransaction.ts *)

(** The modules [ContractExecuteTransaction.ts] imports and that are not
    part of the files under study, each operation at its declared type:
    [String(gas)] on [number | BigNumber], [tinybarToString] on
    [Tinybar | Hbar], [ContractFunctionParams] with its constructor and
    [_build], and [ContractId] with its constructor and [_toProto].
    [tinybarToString] rejects an amount out of range and [new ContractId] a
    malformed id, so what they accept is given as a partial function
    ([Tinybar_text], [ContractId_parse]). *)
Class ContractSdk : Type := {
  Gas : Type;
  Amount : Type;
  ContractFunctionParams : Type;
  ContractIdLike : Type;
  ContractId : Type;
  ContractID : Type;
  String_ : Gas -> string;
  Tinybar_text : Amount -> option string;
  new_ContractFunctionParams : ContractFunctionParams;
  _build : ContractFunctionParams -> string -> list Byte.byte;
  ContractId_parse : ContractIdLike -> option ContractId;
  _toProto : ContractId -> ContractID
}.

(** A small instance: gas and amounts are integers printed in decimal, an
    amount below zero being out of range; function parameters are a list of
    bytes put after the bytes of the name; a contract id is a number, one below
    zero being malformed. *)
Definition contractSdkZ : ContractSdk := {|
  Gas := Z;
  Amount := Z;
  ContractFunctionParams := list Byte.byte;
  ContractIdLike := Z;
  ContractId := Z;
  ContractID := Z;
  String_ := fun n => pretty n;
  Tinybar_text := fun n => if Z.leb 0 n then Some (pretty n) else None;
  new_ContractFunctionParams := [];
  _build := fun params name => list_byte_of_string name ++ params;
  ContractId_parse := fun i => if Z.leb 0 i then Some i else None;
  _toProto := fun i => i
|}.

Section ContractExecute.
Context {csdk : ContractSdk}.

Definition cerr : Type := error Empty_set.

(** [tinybarToString(amount)]: the amount as text; it throws on an amount out
    of range. *)
Definition tinybarToString (a : Amount) : outcome cerr string :=
  match Tinybar_text a with
  | Some v => Ok v
  | None => Throw (ImportedError "tinybarToString")
  end.

(** [new ContractId(contractIdLike)]: it throws on a malformed id. *)
Definition new_ContractId (contractIdLike : ContractIdLike) : outcome cerr ContractId :=
  match ContractId_parse contractIdLike with
  | Some id => Ok id
  | None => Throw (ImportedError "ContractId")
  end.

(** [ContractCallTransactionBody] of the generated [ContractCall_pb]: the
    fields the class writes.  A message field that was never set is absent. *)
Record ContractCallTransactionBody : Type := {
  gas : string;
  amount : string;
  functionparameters : list Byte.byte;
  contractid : option ContractID
}.

(** [new ContractCallTransactionBody()]: scalar fields at their protobuf
    defaults, no contract id. *)
Definition new_ContractCallTransactionBody : ContractCallTransactionBody := {|
  gas := "0";
  amount := "0";
  functionparameters := [];
  contractid := None
|}.

(** The generated accessors. *)
Definition body_setGas (v : string) (b : ContractCallTransactionBody) := {|
  gas := v;
  amount := amount b;
  functionparameters := functionparameters b;
  contractid := contractid b
|}.

Definition body_setAmount (v : string) (b : ContractCallTransactionBody) := {|
  gas := gas b;
  amount := v;
  functionparameters := functionparameters b;
  contractid := contractid b
|}.

Definition body_setFunctionparameters (v : list Byte.byte) (b : ContractCallTransactionBody) := {|
  gas := gas b;
  amount := amount b;
  functionparameters := v;
  contractid := contractid b
|}.

Definition body_setContractid (v : ContractID) (b : ContractCallTransactionBody) := {|
  gas := gas b;
  amount := amount b;
  functionparameters := functionparameters b;
  contractid := Some v
|}.

Definition hasContractid (b : ContractCallTransactionBody) : bool :=
  match contractid b with Some _ => true | None => false end.

(** The case of [_inner] that is set.  [_inner.setContractcall(this._body)]
    stores a reference: the message under the case is [_body] itself, and is
    read there. *)
Inductive InnerCase : Type :=
| NoCase
| Contractcall.

(** The object.  [builder_frozen] is modelled from the spec, which gives
    every transaction a frozen flag; [TransactionBuilder.ts] is not among the
    files under study. *)
Record ContractExecuteTransaction : Type := {
  builder_frozen : bool;
  _inner : InnerCase;
  _body : ContractCallTransactionBody
}.

Definition with_body (f : ContractCallTransactionBody -> ContractCallTransactionBody)
    (this : ContractExecuteTransaction) : ContractExecuteTransaction := {|
  builder_frozen := builder_frozen this;
  _inner := _inner this;
  _body := f (_body this)
|}.

(** [new ContractExecuteTransaction()]. *)
Definition new_ContractExecuteTransaction : ContractExecuteTransaction := {|
  builder_frozen := false;
  _inner := Contractcall;
  _body := new_ContractCallTransactionBody
|}.

(** [setGas(gas)]. *)
Definition setGas (g : Gas) : M ContractExecuteTransaction cerr unit :=
  modify (with_body (body_setGas (String_ g))).

(** [setPayableAmount(amount)]. *)
Definition setPayableAmount (a : Amount) : M ContractExecuteTransaction cerr unit :=
  call v <- lift (tinybarToString a) in
  modify (with_body (body_setAmount v)).

(** [setFunction(name, params)]; [params ?? new ContractFunctionParams()]
    replaces a [null] or [undefined] argument. *)
Definition setFunction (name : string) (params : option ContractFunctionParams)
    : M ContractExecuteTransaction cerr unit :=
  modify (with_body (body_setFunctionparameters
    (_build (match params with
             | Some p => p
             | None => new_ContractFunctionParams
             end) name))).

(** [setContractId(contractIdLike)]. *)
Definition setContractId (contractIdLike : ContractIdLike)
    : M ContractExecuteTransaction cerr unit :=
  call id <- lift (new_ContractId contractIdLike) in
  modify (with_body (body_setContractid (_toProto id))).

(** [_doValidate(errors)]: the store is the array it pushes on. *)
Definition _doValidate (this : ContractExecuteTransaction) : M (list string) cerr unit :=
  if negb (hasContractid (_body this))
  then modify (fun errors => errors ++ [".setContractId() required"])
  else ret tt.

(** Modelled from the spec: the validation [execute] runs first;
    [TransactionBuilder.ts] is not among the files under study.  It fails
    with [ValidationError] if [_doValidate] reports missing fields. *)
Definition validate (this : ContractExecuteTransaction) : outcome cerr unit :=
  match _doValidate this [] with
  | (Throw e, _) => Throw e
  | (Ok _, []) => Ok tt
  | (Ok _, errors) => Throw (ValidationError errors)
  end.

(** Modelled from the spec: [execute(transaction, client)], with the attempt
    loop of the execution engine as [engine], acting on the network [W]: no
    network call is attempted before validation has passed. *)
Definition ContractExecuteTransaction_execute {W R}
    (engine : ContractExecuteTransaction -> M W cerr R)
    (this : ContractExecuteTransaction) : M W cerr R :=
  match validate this with
  | Throw e => throw e
  | Ok _ => engine this
  end.

End ContractExecute.

(** ** Sequences of calls *)

(** The other direction of the round trip of the identifier types: an id
    converted to its wire form and back is the id. *)
Class SdkInverseLaws (sdk : Sdk) : Prop := {
  TokenId_inverse :
    forall id : TokenId, TokenId_clone (TokenId_fromProtobuf (TokenId_toProtobuf id)) = id;
  AccountId_inverse :
    forall id : AccountId,
      AccountId_clone (AccountId_fromProtobuf (AccountId_toProtobuf id)) = id
}.

Section TokenDissociateCalls.
Context {sdk : Sdk}.

(** A call of one of the two setters of [TokenDissociateTransaction]. *)
Inductive SetterCall : Type :=
| CallSetTokenIds (tokenIds : list (IdLike TokenId))
| CallSetAccountId (accountId : IdLike AccountId).

Definition callSetter (c : SetterCall) : M TokenDissociateTransaction err unit :=
  match c with
  | CallSetTokenIds ids => setTokenIds ids
  | CallSetAccountId id => setAccountId id
  end.

(** Calls made one after the other by a caller that catches what they throw:
    the object they leave behind. *)
Fixpoint callEach (calls : list SetterCall) (this : TokenDissociateTransaction)
    : TokenDissociateTransaction :=
  match calls with
  | [] => this
  | c :: calls' => callEach calls' (snd (callSetter c this))
  end.

(** What a call stores in [_tokenIds], in [_accountId], on an object that is
    not frozen: nothing when it is a call of the other setter or when
    [fromString] rejects a text of its argument. *)
Definition storedTokenIds (c : SetterCall) : option (list (option TokenId)) :=
  match c with
  | CallSetTokenIds ids =>
    match omap tokenIdOf ids with
    | Ok stored => Some stored
    | Throw _ => None
    end
  | CallSetAccountId _ => None
  end.

Definition storedAccountId (c : SetterCall) : option AccountId :=
  match c with
  | CallSetAccountId id =>
    match accountIdOf id with
    | Ok stored => Some stored
    | Throw _ => None
    end
  | CallSetTokenIds _ => None
  end.

(** What the last call that stores something stores. *)
Fixpoint lastStored {A} (stored : SetterCall -> option A) (calls : list SetterCall)
    : option A :=
  match calls with
  | [] => None
  | c :: calls' =>
    match lastStored stored calls' with
    | Some a => Some a
    | None => stored c
    end
  end.

(** No element of the token list is [null]. *)
Definition isNull {A} (x : option A) : bool :=
  match x with Some _ => false | None => true end.

Definition noNullTokens (this : TokenDissociateTransaction) : bool :=
  match _tokenIds this with
  | Some ids => forallb (fun tokenId => negb (isNull tokenId)) ids
  | None => true
  end.

(** The object with the [null] elements of its token list taken out. *)
Definition withoutNullTokens (this : TokenDissociateTransaction)
    : TokenDissociateTransaction :=
  with_tokenIds
    match _tokenIds this with
    | Some ids => Some (List.filter (fun tokenId => negb (isNull tokenId)) ids)
    | None => None
    end
    this.

(** The objects the class itself gives out: what the constructor and
    [fromProtobuf] return, and what a setter call or an operation of the base
    class on its own state makes of such an object. *)
Inductive built : TokenDissociateTransaction -> Prop :=
| built_new (props : Props) (this : TokenDissociateTransaction) :
    new_TokenDissociateTransaction props = Ok this -> built this
| built_fromProtobuf txs signedTxs ids nodes bodies (this : TokenDissociateTransaction) :
    fromProtobuf txs signedTxs ids nodes bodies = Ok this -> built this
| built_call (c : SetterCall) (this : TokenDissociateTransaction) :
    built this -> built (snd (callSetter c this))
| built_base (b : Transaction) (this : TokenDissociateTransaction) :
    built this -> built (with_super b this).

End TokenDissociateCalls.

Section ContractExecuteCalls.
Context {csdk : ContractSdk}.

(** A call of one of the four setters of [ContractExecuteTransaction]. *)
Inductive BuilderCall : Type :=
| CallSetGas (g : Gas)
| CallSetPayableAmount (a : Amount)
| CallSetFunction (name : string) (params : option ContractFunctionParams)
| CallSetContractId (contractIdLike : ContractIdLike).

Definition callBuilder (c : BuilderCall) : M ContractExecuteTransaction cerr unit :=
  match c with
  | CallSetGas g => setGas g
  | CallSetPayableAmount a => setPayableAmount a
  | CallSetFunction name params => setFunction name params
  | CallSetContractId c => setContractId c
  end.

(** A chain [tx.setA(..).setB(..)...]: each setter returns [this], and a
    setter that throws ends the chain. *)
Definition chain (calls : list BuilderCall) : M ContractExecuteTransaction cerr unit :=
  forOf calls callBuilder.

(** What the last call that writes a given field writes there; a call whose
    argument is rejected writes nothing. *)
Fixpoint lastWrite {A} (written : BuilderCall -> option A) (calls : list BuilderCall)
    : option A :=
  match calls with
  | [] => None
  | c :: calls' =>
    match lastWrite written calls' with
    | Some a => Some a
    | None => written c
    end
  end.

Definition writtenGas (c : BuilderCall) : option string :=
  match c with CallSetGas g => Some (String_ g) | _ => None end.

Definition writtenAmount (c : BuilderCall) : option string :=
  match c with CallSetPayableAmount a => Tinybar_text a | _ => None end.

Definition writtenFunctionparameters (c : BuilderCall) : option (list Byte.byte) :=
  match c with
  | CallSetFunction name (Some params) => Some (_build params name)
  | CallSetFunction name None => Some (_build new_ContractFunctionParams name)
  | _ => None
  end.

Definition writtenContractid (c : BuilderCall) : option ContractID :=
  match c with
  | CallSetContractId c =>
    match ContractId_parse c with
    | Some id => Some (_toProto id)
    | None => None
    end
  | _ => None
  end.

(** What a call throws, if it throws: the rejection of its argument. *)
Definition thrownBy (c : BuilderCall) : option cerr :=
  match c with
  | CallSetPayableAmount a =>
    match tinybarToString a with
    | Throw e => Some e
    | Ok _ => None
    end
  | CallSetContractId c =>
    match new_ContractId c with
    | Throw e => Some e
    | Ok _ => None
    end
  | _ => None
  end.

(** The calls of a chain that return: those before the first that throws; and
    what that one throws. *)
Fixpoint returning (calls : list BuilderCall) : list BuilderCall :=
  match calls with
  | [] => []
  | c :: calls' =>
    match thrownBy c with
    | Some _ => []
    | None => c :: returning calls'
    end
  end.

Fixpoint firstThrown (calls : list BuilderCall) : option cerr :=
  match calls with
  | [] => None
  | c :: calls' =>
    match thrownBy c with
    | Some e => Some e
    | None => firstThrown calls'
    end
  end.

Definition orElse {A} (o : option A) (a : A) : A :=
  match o with Some x => x | None => a end.

(** The object a chain of calls leaves. *)
Definition chained (calls : list BuilderCall) (this : ContractExecuteTransaction)
    : ContractExecuteTransaction := {|
  builder_frozen := builder_frozen this;
  _inner := _inner this;
  _body := {|
    gas := orElse (lastWrite writtenGas calls) (gas (_body this));
    amount := orElse (lastWrite writtenAmount calls) (amount (_body this));
    functionparameters :=
      orElse (lastWrite writtenFunctionparameters calls) (functionparameters (_body this));
    contractid :=
      match lastWrite writtenContractid calls with
      | Some c => Some c
      | None => contractid (_body this)
      end
  |}
|}.

End ContractExecuteCalls.

(** ** Sample objects

    Objects over the small instances, on which the statements are evaluated. *)

Section Samples.
#[local] Existing Instance sdkZ.
#[local] Existing Instance contractSdkZ.

(** A transaction built by the constructor and frozen for nodes 3 and 4
    under transaction id 100. *)
Definition sampleProps : @Props sdkZ := {|
  props_tokenIds := Some [IsId 7%Z; IsString "0.0.8"];
  props_accountId := Some (IsId 2%Z)
|}.

Definition sampleFrozen : @TokenDissociateTransaction sdkZ :=
  match new_TokenDissociateTransaction sampleProps with
  | Ok this => snd (freeze [3%Z; 4%Z] 100%Z None false this)
  | Throw _ => {| super := new_Transaction;
                  _tokenIds := None;
                  _accountId := None;
                  _defaultMaxTransactionFee := new_Hbar 0 |}
  end.

(** Its payload in wire form, and its bodies. *)
Definition samplePayload : @ITokenDissociateTransactionBody sdkZ := {|
  tokens := Some [7%Z; 8%Z];
  account := Some 2%Z
|}.

Definition sampleBody (node : Z) : @ITransactionBody sdkZ := {|
  transactionID := Some 100%Z;
  nodeAccountID := Some node;
  transactionFee := Some (new_Hbar 5);
  tokenDissociate := Some samplePayload
|}.

Definition sampleBodies : list (@ITransactionBody sdkZ) := [sampleBody 3; sampleBody 4].

(** A body of another kind: the [tokenDissociate] case is not set. *)
Definition otherBody : @ITransactionBody sdkZ := {|
  transactionID := Some 100%Z;
  nodeAccountID := Some 3%Z;
  transactionFee := None;
  tokenDissociate := None
|}.

(** A transaction whose account id (9) does not match network 8, while its
    first token (7) does and its second (12) does not. *)
Definition sampleMismatch : @TokenDissociateTransaction sdkZ := {|
  super := new_Transaction;
  _tokenIds := Some [Some 7%Z; None; Some 12%Z];
  _accountId := Some 9%Z;
  _defaultMaxTransactionFee := new_Hbar 5
|}.

(** The object the constructor returns for the sample props. *)
Definition sampleBuilt : @TokenDissociateTransaction sdkZ := {|
  super := new_Transaction;
  _tokenIds := Some [Some 7%Z; Some 8%Z];
  _accountId := Some 2%Z;
  _defaultMaxTransactionFee := new_Hbar 5
|}.

(** Props with a text that is not an id. *)
Definition malformedProps : @Props sdkZ := {|
  props_tokenIds := Some [IsId 7%Z; IsString "garbage"];
  props_accountId := Some (IsId 2%Z)
|}.

(** The calls of the contract example: contract id, gas, function. *)
Definition exampleCalls : list (@BuilderCall contractSdkZ) :=
  [CallSetContractId 1001%Z; CallSetGas 75000%Z; CallSetFunction "set_message" (Some [])].

End Samples.

(** * Properties *)

(** ** Record and monad equations *)

Section TokenDissociateFacts.
Context {sdk : Sdk}.

Lemma with_super_id (this : TokenDissociateTransaction) :
  with_super (super this) this = this.
Proof. now destruct this. Qed.

Lemma requireNotFrozen_eq (this : TokenDissociateTransaction) :
  requireNotFrozen this =
  if frozen (super this) then (Throw FrozenTransactionError, this) else (Ok tt, this).
Proof.
  unfold requireNotFrozen, Transaction_requireNotFrozen, bind, get, throw, ret.
  destruct (frozen (super this)); now rewrite with_super_id.
Qed.

Lemma setTokenIds_eq (ids : list (IdLike TokenId)) (this : TokenDissociateTransaction) :
  setTokenIds ids this =
  if frozen (super this) then (Throw FrozenTransactionError, this)
  else match omap tokenIdOf ids with
       | Ok stored => (Ok tt, with_tokenIds (Some stored) this)
       | Throw e => (Throw e, this)
       end.
Proof.
  unfold setTokenIds, bind. rewrite requireNotFrozen_eq.
  destruct (frozen (super this)); [reflexivity |].
  unfold lift. fold tokenIdOf.
  change (fun tokenId : IdLike TokenId =>
            match tokenId with
            | IsString s => outcome_map Some (TokenId_fromString s)
            | IsId id => Ok (Some (TokenId_clone id))
            end) with tokenIdOf.
  now destruct (omap tokenIdOf ids).
Qed.

Lemma setAccountId_eq (id : IdLike AccountId) (this : TokenDissociateTransaction) :
  setAccountId id this =
  if frozen (super this) then (Throw FrozenTransactionError, this)
  else match accountIdOf id with
       | Ok stored => (Ok tt, with_accountId (Some stored) this)
       | Throw e => (Throw e, this)
       end.
Proof.
  unfold setAccountId, bind. rewrite requireNotFrozen_eq.
  destruct (frozen (super this)); [reflexivity |].
  unfold lift.
  change (match id with
          | IsString s => AccountId_fromString s
          | IsId id0 => Ok (AccountId_clone id0)
          end) with (accountIdOf id).
  now destruct (accountIdOf id).
Qed.

(** What the constructor makes of its props. *)
Lemma new_TokenDissociateTransaction_eq (props : Props) :
  new_TokenDissociateTransaction props =
  obind
    (match props_tokenIds props with
     | Some ids => outcome_map Some (omap tokenIdOf ids)
     | None => Ok None
     end)
    (fun storedTokens =>
       obind
         (match props_accountId props with
          | Some id => outcome_map Some (accountIdOf id)
          | None => Ok None
          end)
         (fun storedAccount =>
            Ok {| super := new_Transaction;
                  _tokenIds := storedTokens;
                  _accountId := storedAccount;
                  _defaultMaxTransactionFee := new_Hbar 5 |})).
Proof.
  unfold new_TokenDissociateTransaction, bind.
  destruct props as [[ids |] [id |]]; simpl;
    rewrite ?setTokenIds_eq, ?setAccountId_eq; simpl;
    try destruct (omap tokenIdOf ids); simpl;
    rewrite ?setAccountId_eq; simpl;
    try destruct (accountIdOf id); reflexivity.
Qed.

(** Ids that are given as ids, not as text, are all accepted. *)
Lemma omap_tokenIdOf_ids (ids : list TokenId) :
  omap tokenIdOf (map IsId ids) = Ok (map (fun id => Some (TokenId_clone id)) ids).
Proof.
  induction ids as [| id ids IH]; simpl; [reflexivity |]. now rewrite IH.
Qed.

Lemma omap_tokenIdOf_noNull (ids : list (IdLike TokenId)) stored :
  omap tokenIdOf ids = Ok stored ->
  forallb (fun tokenId : option TokenId => negb (isNull tokenId)) stored = true.
Proof.
  revert stored. induction ids as [| tokenId ids IH]; intros stored; simpl.
  - now intros [= <-].
  - destruct (tokenIdOf tokenId) as [t |] eqn:converted; simpl; [| discriminate].
    destruct (omap tokenIdOf ids) as [l |]; simpl; [| discriminate].
    intros [= <-]. simpl. rewrite (IH l eq_refl).
    destruct tokenId as [text | id]; simpl in converted.
    + unfold TokenId_fromString in converted.
      destruct (TokenId_parse text); simpl in converted; [| discriminate].
      now injection converted as <-.
    + now injection converted as <-.
Qed.

End TokenDissociateFacts.

(** ** The setters and the frozen flag *)

(** C1, as stated, fails on the code: a setter need not succeed on a
    transaction that is not frozen.  [setTokenIds(["garbage"])] on a newly
    constructed transaction throws what [TokenId.fromString] throws. *)
Lemma setTokenIds_rejects_text :
  ~ succeeds_when_not_frozen
      (fun this => frozen (super this))
      (setTokenIds (sdk := sdkZ) [IsString "garbage"]).
Proof.
  intros succeeds.
  specialize (succeeds {| super := new_Transaction;
                          _tokenIds := None;
                          _accountId := None;
                          _defaultMaxTransactionFee := new_Hbar 5 |} eq_refl).
  discriminate succeeds.
Qed.

(** C1, amended.  The setters of [TokenDissociateTransaction] ([setTokenIds],
    [setAccountId]) fail with [FrozenTransactionError] on a frozen transaction
    and leave the whole object unchanged.  On a transaction that is not frozen
    they store the converted ids in place and return, nothing else changing,
    unless [fromString] rejects a text of the argument: then they throw what it
    throws and the object is unchanged.  The setters of
    [ContractExecuteTransaction] ([setGas], [setPayableAmount], [setFunction],
    [setContractId]) make no frozen check and never fail with
    [FrozenTransactionError]: they write their field of the body in place and
    return, unless [tinybarToString] or [new ContractId] rejects the argument:
    then they throw what it throws and the object is unchanged. *)
Theorem setters_and_frozen_flag (sdk : Sdk) (csdk : ContractSdk) :
  (forall (ids : list (IdLike TokenId)) (this : TokenDissociateTransaction),
      fails_when_frozen (fun t => frozen (super t)) payload (setTokenIds ids) /\
      setTokenIds ids this =
      if frozen (super this) then (Throw FrozenTransactionError, this)
      else match omap tokenIdOf ids with
           | Ok stored =>
             (Ok tt, {| super := super this;
                        _tokenIds := Some stored;
                        _accountId := _accountId this;
                        _defaultMaxTransactionFee := _defaultMaxTransactionFee this |})
           | Throw e => (Throw e, this)
           end) /\
  (forall (id : IdLike AccountId) (this : TokenDissociateTransaction),
      fails_when_frozen (fun t => frozen (super t)) payload (setAccountId id) /\
      setAccountId id this =
      if frozen (super this) then (Throw FrozenTransactionError, this)
      else match accountIdOf id with
           | Ok stored =>
             (Ok tt, {| super := super this;
                        _tokenIds := _tokenIds this;
                        _accountId := Some stored;
                        _defaultMaxTransactionFee := _defaultMaxTransactionFee this |})
           | Throw e => (Throw e, this)
           end) /\
  (forall (this : ContractExecuteTransaction),
      (forall g : Gas,
          setGas g this =
          (Ok tt, {| builder_frozen := builder_frozen this;
                     _inner := _inner this;
                     _body := {| gas := String_ g;
                                 amount := amount (_body this);
                                 functionparameters := functionparameters (_body this);
                                 contractid := contractid (_body this) |} |})) /\
      (forall a : Amount,
          setPayableAmount a this =
          match tinybarToString a with
          | Ok v =>
            (Ok tt, {| builder_frozen := builder_frozen this;
                       _inner := _inner this;
                       _body := {| gas := gas (_body this);
                                   amount := v;
                                   functionparameters := functionparameters (_body this);
                                   contractid := contractid (_body this) |} |})
          | Throw e => (Throw e, this)
          end /\
          fst (setPayableAmount a this) <> Throw FrozenTransactionError) /\
      (forall (name : string) (params : ContractFunctionParams),
          setFunction name (Some params) this =
          (Ok tt, {| builder_frozen := builder_frozen this;
                     _inner := _inner this;
                     _body := {| gas := gas (_body this);
                                 amount := amount (_body this);
                                 functionparameters := _build params name;
                                 contractid := contractid (_body this) |} |})) /\
      (forall c : ContractIdLike,
          setContractId c this =
          match new_ContractId c with
          | Ok id =>
            (Ok tt, {| builder_frozen := builder_frozen this;
                       _inner := _inner this;
                       _body := {| gas := gas (_body this);
                                   amount := amount (_body this);
                                   functionparameters := functionparameters (_body this);
                                   contractid := Some (_toProto id) |} |})
          | Throw e => (Throw e, this)
          end /\
          fst (setContractId c this) <> Throw FrozenTransactionError)).
Proof.
  split; [| split].
  - intros ids this. split.
    + intros t Hfrozen. rewrite setTokenIds_eq, Hfrozen. now split.
    + rewrite setTokenIds_eq. destruct (frozen (super this)); [reflexivity |].
      now destruct (omap tokenIdOf ids).
  - intros id this. split.
    + intros t Hfrozen. rewrite setAccountId_eq, Hfrozen. now split.
    + rewrite setAccountId_eq. destruct (frozen (super this)); [reflexivity |].
      now destruct (accountIdOf id).
  - intros this. split; [reflexivity |]. split; [| split; [reflexivity |]].
    + intros a. unfold setPayableAmount, bind, lift, tinybarToString.
      destruct (Tinybar_text a); simpl; split; [reflexivity | discriminate
                                               | reflexivity | discriminate].
    + intros c. unfold setContractId, bind, lift, new_ContractId.
      destruct (ContractId_parse c); simpl; split; [reflexivity | discriminate
                                                   | reflexivity | discriminate].
Qed.

(** ** The constructor *)

(** C10.  Every [TokenDissociateTransaction] the constructor returns, with or
    without props, has the default maximum transaction fee at exactly 5 hbar;
    constructed with empty props its [tokenIds] and [accountId] are [null].
    The constructor returns whenever its props hold no id given as text. *)
Theorem constructor_defaults (sdk : Sdk) :
  (forall (props : Props) (this : TokenDissociateTransaction),
      new_TokenDissociateTransaction props = Ok this ->
      _defaultMaxTransactionFee this = new_Hbar 5) /\
  (exists this : TokenDissociateTransaction,
      new_TokenDissociateTransaction noProps = Ok this /\
      tokenIds this = None /\
      accountId this = None /\
      _defaultMaxTransactionFee this = new_Hbar 5) /\
  (forall (ids : list TokenId) (id : AccountId),
      exists this : TokenDissociateTransaction,
        new_TokenDissociateTransaction
          {| props_tokenIds := Some (map IsId ids); props_accountId := Some (IsId id) |} =
          Ok this /\
        _defaultMaxTransactionFee this = new_Hbar 5).
Proof.
  split; [| split].
  - intros props this. rewrite new_TokenDissociateTransaction_eq.
    unfold obind.
    destruct (match props_tokenIds props with
              | Some ids => outcome_map Some (omap tokenIdOf ids)
              | None => Ok None
              end); [| discriminate].
    destruct (match props_accountId props with
              | Some id => outcome_map Some (accountIdOf id)
              | None => Ok None
              end); [| discriminate].
    now intros [= <-].
  - rewrite new_TokenDissociateTransaction_eq. simpl. eauto 10.
  - intros ids id. rewrite new_TokenDissociateTransaction_eq. simpl.
    rewrite omap_tokenIdOf_ids. simpl. eauto.
Qed.

(** ** Checksum validation *)

Section ChecksumFacts.
Context {sdk : Sdk}.

Lemma validated_nil client invoked : validated client [] invoked = (Ok tt, invoked).
Proof. unfold validated. simpl. now rewrite app_nil_r. Qed.

Lemma validated_cons client id ids invoked :
  validated client (id :: ids) invoked =
  if checksumMatches client id then validated client ids (invoked ++ [id])
  else (Throw (InvalidChecksumError id), invoked ++ [id]).
Proof.
  unfold validated, firstMismatch. simpl.
  destruct (checksumMatches client id); simpl; [| reflexivity].
  destruct (find _ ids); now rewrite <- app_assoc.
Qed.

Lemma forOf_tokenIds client (ids : list (option TokenId)) :
  forall invoked,
    forOf ids (fun tokenId =>
                 match tokenId with
                 | Some id => TokenId_validateChecksum id client
                 | None => ret tt
                 end) invoked =
    validated client (embeddedTokens ids) invoked.
Proof.
  induction ids as [| [id |] ids IH]; intros invoked; simpl.
  - now rewrite validated_nil.
  - rewrite validated_cons. unfold bind at 1.
    unfold TokenId_validateChecksum, bind, modify, ret, throw. simpl.
    destruct (TokenId_checksumMatches id client); [apply IH | reflexivity].
  - unfold bind at 1, ret at 1. apply IH.
Qed.

Lemma validateChecksums_eq (this : TokenDissociateTransaction) client invoked :
  validateChecksums this client invoked = validated client (embeddedIds this) invoked.
Proof.
  unfold validateChecksums, embeddedIds, bind at 1.
  destruct (_accountId this) as [a |]; simpl.
  - rewrite validated_cons.
    unfold AccountId_validateChecksum, bind, modify, ret, throw. simpl.
    destruct (AccountId_checksumMatches a client); [apply forOf_tokenIds | reflexivity].
  - unfold ret at 1. apply forOf_tokenIds.
Qed.

Lemma firstMismatch_None client ids :
  firstMismatch client ids = None <-> forallb (checksumMatches client) ids = true.
Proof.
  unfold firstMismatch. induction ids as [| id ids IH]; simpl; [tauto |].
  destruct (checksumMatches client id); simpl; [exact IH | split; discriminate].
Qed.

Lemma firstMismatch_Some client ids id :
  firstMismatch client ids = Some id -> In id ids /\ checksumMatches client id = false.
Proof.
  unfold firstMismatch. intros found. apply find_some in found.
  destruct found as [member mismatch]. split; [exact member |].
  now destruct (checksumMatches client id).
Qed.

Lemma throughFirstMismatch_prefix client ids :
  exists rest, ids = throughFirstMismatch client ids ++ rest.
Proof.
  induction ids as [| id ids [rest IH]]; simpl.
  - now exists [].
  - destruct (checksumMatches client id).
    + exists rest. now rewrite <- IH.
    + now exists ids.
Qed.

End ChecksumFacts.

(** C3.  [validateChecksums] invokes checksum validation, against the
    client it is given, on the account id when it is not [null] and then on
    every element of the token list that is not [null], and on nothing else:
    the validations invoked are the embedded ids in order, all of them when the
    call returns and those up to the first mismatch when it throws.  It fails
    exactly when one of these ids does not match, with
    [InvalidChecksumError] naming the first such id; with [accountId] and
    [tokenIds] both [null] it returns having validated nothing. *)
Theorem validateChecksums_spec (sdk : Sdk)
    (this : TokenDissociateTransaction) (client : Client) (invoked : list EntityId) :
  validateChecksums this client invoked =
    match firstMismatch client (embeddedIds this) with
    | None => (Ok tt, invoked ++ embeddedIds this)
    | Some id =>
      (Throw (InvalidChecksumError id),
       invoked ++ throughFirstMismatch client (embeddedIds this))
    end /\
  (exists rest, embeddedIds this = throughFirstMismatch client (embeddedIds this) ++ rest) /\
  (fst (validateChecksums this client invoked) = Ok tt <->
   forallb (checksumMatches client) (embeddedIds this) = true) /\
  (forall id,
      fst (validateChecksums this client invoked) = Throw (InvalidChecksumError id) ->
      In id (embeddedIds this) /\ checksumMatches client id = false) /\
  (forall e, fst (validateChecksums this client invoked) = Throw e ->
             exists id, e = InvalidChecksumError id) /\
  (_accountId this = None -> _tokenIds this = None ->
   validateChecksums this client invoked = (Ok tt, invoked)).
Proof.
  rewrite validateChecksums_eq. unfold validated.
  split; [reflexivity |].
  split; [apply throughFirstMismatch_prefix |].
  split; [| split; [| split]].
  - rewrite <- firstMismatch_None.
    destruct (firstMismatch client (embeddedIds this)); simpl; split;
      intros; congruence.
  - intros id. destruct (firstMismatch client (embeddedIds this)) eqn:found; simpl.
    + intros thrown. injection thrown as ->. now apply firstMismatch_Some.
    + discriminate.
  - intros e. destruct (firstMismatch client (embeddedIds this)); simpl.
    + intros thrown. injection thrown as <-. eauto.
    + discriminate.
  - intros noAccount noTokens. unfold embeddedIds.
    rewrite noAccount, noTokens. simpl. now rewrite app_nil_r.
Qed.

(** ** The channel *)

(** C7.  One invocation of [[symbols.execute]] is one call of the channel's
    [token.dissociateTokens] on the request it was given, and its result is
    that call's result: on a channel that records its sends, exactly one send is
    added, to service [token], method [dissociateTokens], carrying the
    request, and the acknowledgement comes back unchanged.  There is no retry
    and no other method is contacted. *)
Theorem execute_sends_once (sdk : Sdk) :
  (forall (W : Type) (channel : Channel W) (request : ITransaction),
      execute channel request = channel "token" "dissociateTokens" request) /\
  (forall (ack : string -> string -> ITransaction -> ITransactionResponse)
          (request : ITransaction) (sent : list Sent),
      execute (recording ack) request sent =
      (Ok (ack "token" "dissociateTokens" request),
       sent ++ [("token", "dissociateTokens", request)])).
Proof.
  split; reflexivity.
Qed.

(** ** The payload registry *)

Section RegistryFacts.
Context {sdk : Sdk}.

Lemma makeTransactionBody_eq (this : TokenDissociateTransaction) transactionId node :
  makeTransactionBody this transactionId node =
  outcome_map
    (fun payload => {|
       transactionID := Some transactionId;
       nodeAccountID := Some (AccountId_toProtobuf node);
       transactionFee :=
         Some match maxTransactionFee (super this) with
              | Some fee => fee
              | None => _defaultMaxTransactionFee this
              end;
       tokenDissociate := Some payload |})
    (makeTransactionData this).
Proof.
  unfold makeTransactionBody, obind, outcome_map.
  now destruct (makeTransactionData this).
Qed.

Lemma makeTransactionBody_data (this : TokenDissociateTransaction) transactionId node body :
  makeTransactionBody this transactionId node = Ok body ->
  data body = Some (getTransactionDataCase this).
Proof.
  rewrite makeTransactionBody_eq. unfold outcome_map.
  destruct (makeTransactionData this); [| discriminate].
  now intros [= <-].
Qed.

Lemma module_init_lookup (registry : gmap string FromProtobuf) :
  module_init registry !! "tokenDissociate" = Some TokenDissociateTransaction_fromProtobuf.
Proof. unfold module_init. apply lookup_insert_eq. Qed.

Lemma fromWire_tokenDissociate (registry : gmap string FromProtobuf) body rest ids nodes :
  data body = Some "tokenDissociate" ->
  fromWire (module_init registry) (body :: rest) ids nodes =
  TokenDissociateTransaction_fromProtobuf [] [] ids nodes (body :: rest).
Proof.
  intros tagged. unfold fromWire, constructFromWire. simpl.
  now rewrite tagged, module_init_lookup.
Qed.

End RegistryFacts.

(** ** Validation of a contract call *)

(** C4.  [_doValidate] pushes [".setContractId() required"] on the error list
    it is given exactly when no contract id has been set on the body, and
    pushes nothing else; so [execute] fails with [ValidationError], the network
    untouched, exactly when the contract id is missing, and otherwise goes on
    to the execution engine. *)
Theorem doValidate_contract_id (csdk : ContractSdk) (this : ContractExecuteTransaction) :
  (forall errors : list string,
      _doValidate this errors =
      (Ok tt,
       if hasContractid (_body this) then errors
       else errors ++ [".setContractId() required"])) /\
  (hasContractid (_body this) = false <-> contractid (_body this) = None) /\
  (forall (W R : Type) (engine : ContractExecuteTransaction -> M W cerr R) (network : W),
      ContractExecuteTransaction_execute engine this network =
      if hasContractid (_body this) then engine this network
      else (Throw (ValidationError [".setContractId() required"]), network)).
Proof.
  unfold ContractExecuteTransaction_execute, validate, _doValidate, hasContractid.
  destruct (contractid (_body this)); simpl; repeat split; intros; congruence.
Qed.

(** ** [setFunction] without parameters *)

(** C9.  [setFunction] called with [null] or [undefined] parameters returns,
    for every function name: it builds the function-parameters field from the
    name with a fresh empty [ContractFunctionParams], as if that had been
    passed, and changes nothing else. *)
Theorem setFunction_without_params (csdk : ContractSdk)
    (name : string) (this : ContractExecuteTransaction) :
  setFunction name None this =
    (Ok tt, {| builder_frozen := builder_frozen this;
               _inner := _inner this;
               _body := {| gas := gas (_body this);
                           amount := amount (_body this);
                           functionparameters := _build new_ContractFunctionParams name;
                           contractid := contractid (_body this) |} |}) /\
  setFunction name None this = setFunction name (Some new_ContractFunctionParams) this.
Proof.
  split; reflexivity.
Qed.

(** ** Freezing without nodes *)

(** C6.  [freeze] called with an empty node list, the client offering no
    default nodes either, fails with [NoNodeIdsAvailable] and leaves the
    transaction as it was: still not frozen, with no node id, transaction id
    or body assigned by the call. *)
Theorem freeze_without_nodes (sdk : Sdk)
    (makeBody : Transaction -> TransactionId -> AccountId -> outcome err ITransactionBody)
    (transactionId : TransactionId) (defaultFee : Hbar) (client : option Client)
    (refreeze : bool) (this : Transaction) :
  defaultNodes client = [] ->
  frozen this = false ->
  let result :=
    Transaction_freeze makeBody [] transactionId defaultFee client refreeze this in
  result = (Throw NoNodeIdsAvailable, this) /\
  frozen (snd result) = false /\
  nodeIds (snd result) = nodeIds this /\
  transactionIds (snd result) = transactionIds this /\
  maxTransactionFee (snd result) = maxTransactionFee this /\
  bodyCache (snd result) = bodyCache this.
Proof.
  intros noDefault notFrozen result.
  assert (result = (Throw NoNodeIdsAvailable, this)) as ->.
  { subst result. unfold Transaction_freeze, bind, get, throw.
    destruct client as [c |]; simpl in *; [now rewrite noDefault | reflexivity]. }
  simpl. repeat split; assumption.
Qed.

(** The same on the class: the object is left as it was. *)
Lemma freeze_on_class_no_nodes (sdk : Sdk)
    (transactionId : TransactionId) (client : option Client) (refreeze : bool)
    (this : TokenDissociateTransaction) :
  defaultNodes client = [] ->
  freeze [] transactionId client refreeze this = (Throw NoNodeIdsAvailable, this).
Proof.
  intros noDefault. unfold freeze, Transaction_freeze, bind, get, throw.
  destruct client as [c |]; simpl in *; rewrite ?noDefault; now rewrite with_super_id.
Qed.

(** ** Rehydration *)

Section RehydrationFacts.
Context {sdk : Sdk}.

Lemma omap_total {E A B} (f : A -> outcome E B) (g : A -> B) (l : list A) :
  (forall x, In x l -> f x = Ok (g x)) -> omap f l = Ok (map g l).
Proof.
  induction l as [| x l IH]; intros total; simpl; [reflexivity |].
  rewrite (total x (or_introl eq_refl)). simpl.
  rewrite IH; [reflexivity |]. intros y member. apply total. now right.
Qed.

Lemma omap_throws {E A B} (f : A -> outcome E B) (e : E) (l : list A) :
  (forall x, f x = Throw e) -> l <> [] -> omap f l = Throw e.
Proof.
  intros throws. destruct l as [| x l]; [congruence |]. intros _. simpl.
  now rewrite throws.
Qed.

Lemma omap_tokenIdOf_protobuf (ts : list ITokenID) :
  omap tokenIdOf (map (fun token => IsId (TokenId_fromProtobuf token)) ts) =
  Ok (map (fun token => Some (TokenId_clone (TokenId_fromProtobuf token))) ts).
Proof.
  induction ts as [| token ts IH]; simpl; [reflexivity |]. now rewrite IH.
Qed.

(** The object [fromProtobuf] returns, field by field. *)
Lemma fromProtobuf_eq txs signedTxs ids nodes (bodies : list ITransactionBody) :
  fromProtobuf txs signedTxs ids nodes bodies =
  match bodies !! 0%nat with
  | None => Throw TypeError
  | Some body =>
    match tokenDissociate body with
    | None => Throw TypeError
    | Some d =>
      Ok {| super :=
              Transaction_fromProtobufTransactions new_Transaction
                txs signedTxs ids nodes bodies;
            _tokenIds := fst (payloadOfProtobuf d);
            _accountId := snd (payloadOfProtobuf d);
            _defaultMaxTransactionFee := new_Hbar 5 |}
    end
  end.
Proof.
  unfold fromProtobuf.
  destruct (bodies !! 0%nat) as [body |]; [| reflexivity].
  destruct (tokenDissociate body) as [d |]; [| reflexivity].
  rewrite new_TokenDissociateTransaction_eq. unfold payloadOfProtobuf. simpl.
  destruct (tokens d) as [ts |], (account d) as [a |]; simpl;
    rewrite ?omap_tokenIdOf_protobuf; reflexivity.
Qed.

(** [makeTransactionData] undoes the conversion of [fromProtobuf], given the
    round trip of the id types. *)
Lemma makeTransactionData_payloadOfProtobuf {laws : SdkLaws sdk}
    (d : ITokenDissociateTransactionBody) (this : TokenDissociateTransaction) :
  payload this = payloadOfProtobuf d ->
  makeTransactionData this = Ok d.
Proof.
  unfold payload, payloadOfProtobuf, makeTransactionData.
  intros [= -> ->]. destruct d as [ts a]. simpl.
  assert (forall l : list ITokenID,
             omap (fun tokenId : option TokenId =>
                     match tokenId with
                     | Some id => Ok (E := err) (TokenId_toProtobuf id)
                     | None => Throw TypeError
                     end)
                  (map (fun token => Some (TokenId_clone (TokenId_fromProtobuf token))) l)
             = Ok l) as back.
  { induction l as [| token l IH]; simpl; [reflexivity |].
    now rewrite IH, TokenId_roundtrip. }
  destruct ts as [ts |], a as [a |]; simpl;
    rewrite ?back, ?AccountId_roundtrip; reflexivity.
Qed.

Lemma wireBodies_eq (this : TokenDissociateTransaction) d :
  makeTransactionData this = Ok d ->
  wireBodies this =
  Ok (map (envelopeBody (feeOf this) d)
          (envelopePairs (transactionIds (super this)) (nodeIds (super this)))).
Proof.
  intros made. unfold wireBodies. apply omap_total. intros p _.
  now rewrite makeTransactionBody_eq, made.
Qed.

Lemma wireBodies_inv (this : TokenDissociateTransaction) bodies :
  wireBodies this = Ok bodies -> bodies <> [] ->
  exists d, makeTransactionData this = Ok d.
Proof.
  intros made nonempty.
  destruct (makeTransactionData this) as [d | e] eqn:payloadMade; [eauto |].
  exfalso. unfold wireBodies in made.
  destruct (envelopePairs (transactionIds (super this)) (nodeIds (super this)))
    as [| p pairs] eqn:noPairs.
  - simpl in made. congruence.
  - rewrite (omap_throws _ e) in made; [discriminate | | discriminate].
    intros q. now rewrite makeTransactionBody_eq, payloadMade.
Qed.

End RehydrationFacts.

(** C5.  After the module is loaded, whatever the registry held before, the
    tag ["tokenDissociate"] is mapped to the [fromProtobuf] constructor of
    [TokenDissociateTransaction]; this tag is the data case the class
    serializes under; so a registry lookup of the case of any transaction of
    the class dispatches to that constructor and never fails with
    [UnknownTransactionKind], and every body the class produces carries a case
    the registry knows and is rehydrated by the registry: the lookup returns a
    [TokenDissociateTransaction] whose payload is the one the body carries. *)
Theorem registry_knows_tokenDissociate (sdk : Sdk) (registry : gmap string FromProtobuf) :
  module_init registry !! "tokenDissociate" = Some TokenDissociateTransaction_fromProtobuf /\
  (forall this : TokenDissociateTransaction,
      getTransactionDataCase this = "tokenDissociate" /\
      module_init registry !! getTransactionDataCase this =
        Some TokenDissociateTransaction_fromProtobuf /\
      forall txs signedTxs ids nodes bodies,
        constructFromWire (module_init registry) (getTransactionDataCase this)
          txs signedTxs ids nodes bodies =
        TokenDissociateTransaction_fromProtobuf txs signedTxs ids nodes bodies /\
        forall tag : string,
          constructFromWire (module_init registry) (getTransactionDataCase this)
            txs signedTxs ids nodes bodies <> Throw (UnknownTransactionKind tag)) /\
  (forall (this : TokenDissociateTransaction) transactionId node,
      match makeTransactionBody this transactionId node with
      | Throw _ => True
      | Ok body =>
        data body = Some (getTransactionDataCase this) /\
        forall rest ids nodes,
          fromWire (module_init registry) (body :: rest) ids nodes =
          TokenDissociateTransaction_fromProtobuf [] [] ids nodes (body :: rest) /\
          exists (this' : TokenDissociateTransaction) (d : ITokenDissociateTransactionBody),
            makeTransactionData this = Ok d /\
            tokenDissociate body = Some d /\
            fromWire (module_init registry) (body :: rest) ids nodes =
              Ok (IsTokenDissociate this') /\
            payload this' = payloadOfProtobuf d
      end).
Proof.
  split; [apply module_init_lookup |]. split.
  - intros this. split; [reflexivity |]. split; [apply module_init_lookup |].
    intros txs signedTxs ids nodes bodies.
    assert (constructFromWire (module_init registry) (getTransactionDataCase this)
              txs signedTxs ids nodes bodies =
            TokenDissociateTransaction_fromProtobuf txs signedTxs ids nodes bodies)
      as dispatched.
    { unfold constructFromWire, getTransactionDataCase.
      now rewrite module_init_lookup. }
    split; [exact dispatched |]. intros tag. rewrite dispatched.
    unfold TokenDissociateTransaction_fromProtobuf. rewrite fromProtobuf_eq.
    destruct (bodies !! 0%nat) as [body |]; [| discriminate].
    destruct (tokenDissociate body); discriminate.
  - intros this transactionId node.
    destruct (makeTransactionBody this transactionId node) as [body |] eqn:made;
      [| exact I].
    pose proof (makeTransactionBody_data _ _ _ _ made) as tagged.
    split; [exact tagged |].
    intros rest ids nodes.
    rewrite (fromWire_tokenDissociate registry body rest ids nodes tagged).
    split; [reflexivity |].
    rewrite makeTransactionBody_eq in made.
    destruct (makeTransactionData this) as [d |]; [| discriminate].
    simpl in made. injection made as <-.
    unfold TokenDissociateTransaction_fromProtobuf. rewrite fromProtobuf_eq. simpl.
    eexists. exists d. repeat split.
Qed.

(** C8.  What [fromProtobuf] reconstructs depends on the first decoded body
    only: two invocations whose body lists agree at index 0 build the same
    payload ([tokenIds] and [accountId]), or fail alike, whatever the other
    bodies and the [transactions], [signedTransactions], [transactionIds] and
    [nodeIds] arguments are; and that payload is the projection of
    [bodies[0].tokenDissociate], each id converted from its wire form. *)
Theorem fromProtobuf_first_body_only (sdk : Sdk)
    txs1 signedTxs1 ids1 nodes1 (bodies1 : list ITransactionBody)
    txs2 signedTxs2 ids2 nodes2 (bodies2 : list ITransactionBody) :
  bodies1 !! 0%nat = bodies2 !! 0%nat ->
  outcome_map payload (fromProtobuf txs1 signedTxs1 ids1 nodes1 bodies1) =
  outcome_map payload (fromProtobuf txs2 signedTxs2 ids2 nodes2 bodies2) /\
  outcome_map payload (fromProtobuf txs1 signedTxs1 ids1 nodes1 bodies1) =
  match bodies1 !! 0%nat with
  | None => Throw TypeError
  | Some body =>
    match tokenDissociate body with
    | None => Throw TypeError
    | Some d => Ok (payloadOfProtobuf d)
    end
  end.
Proof.
  intros sameFirst. rewrite !fromProtobuf_eq, <- sameFirst.
  destruct (bodies1 !! 0%nat) as [body |]; [| now split].
  destruct (tokenDissociate body) as [d |]; [| now split].
  unfold outcome_map, payload, payloadOfProtobuf. simpl. now split.
Qed.

(** C2.  Round trip, given that the id types round-trip through their wire
    form.  For every [TokenDissociateTransaction] that has wire bodies,
    rehydrating it from them through the registry, with its transaction ids
    and node ids and no signatures, gives a [TokenDissociateTransaction] that
    carries no signatures and whose wire bodies are the original ones, body for
    body (hence byte for byte under any encoding).  At the payload level, for
    every decoded body list whose first body carries the [tokenDissociate]
    case, [makeTransactionData] of the transaction [fromProtobuf] builds is
    that payload: the same [tokens] and [account], absent fields staying
    [null]. *)
Theorem rehydration_round_trip (sdk : Sdk) (laws : SdkLaws sdk) :
  (forall (registry : gmap string FromProtobuf) (this : TokenDissociateTransaction)
          (bodies : list ITransactionBody),
      wireBodies this = Ok bodies ->
      bodies <> [] ->
      exists this' : TokenDissociateTransaction,
        fromWire (module_init registry) bodies
                 (transactionIds (super this)) (nodeIds (super this)) =
          Ok (IsTokenDissociate this') /\
        signedTransactions (super this') = [] /\
        wireBodies this' = Ok bodies /\
        forall encode : ITransactionBody -> list Byte.byte,
          outcome_map (map encode) (wireBodies this') = Ok (map encode bodies)) /\
  (forall txs signedTxs ids nodes (body : ITransactionBody) rest
          (d : ITokenDissociateTransactionBody),
      tokenDissociate body = Some d ->
      obind (fromProtobuf txs signedTxs ids nodes (body :: rest)) makeTransactionData =
      Ok d /\
      (tokens d = None ->
       outcome_map tokens
         (obind (fromProtobuf txs signedTxs ids nodes (body :: rest)) makeTransactionData) =
       Ok None) /\
      (account d = None ->
       outcome_map account
         (obind (fromProtobuf txs signedTxs ids nodes (body :: rest)) makeTransactionData) =
       Ok None)).
Proof.
  split.
  - intros registry this bodies made nonempty.
    destruct (wireBodies_inv this bodies made nonempty) as [d payloadMade].
    rewrite (wireBodies_eq this d payloadMade) in made. injection made as <-.
    destruct (envelopePairs (transactionIds (super this)) (nodeIds (super this)))
      as [| p pairs] eqn:somePairs; [now contradiction nonempty |].
    simpl map at 1.
    rewrite fromWire_tokenDissociate by reflexivity.
    unfold TokenDissociateTransaction_fromProtobuf. rewrite fromProtobuf_eq. simpl.
    eexists. split; [reflexivity |]. split; [reflexivity |].
    assert (forall this' : TokenDissociateTransaction,
               payload this' = payloadOfProtobuf d ->
               feeOf this' = feeOf this ->
               envelopePairs (transactionIds (super this')) (nodeIds (super this')) = p :: pairs ->
               wireBodies this' =
               Ok (envelopeBody (feeOf this) d p :: map (envelopeBody (feeOf this) d) pairs))
      as again.
    { intros this' samePayload sameFee samePairs.
      rewrite (wireBodies_eq this' d (makeTransactionData_payloadOfProtobuf d this' samePayload)).
      now rewrite samePairs, sameFee. }
    match goal with
    | |- wireBodies ?t = _ /\ _ =>
      assert (wireBodies t = Ok (envelopeBody (feeOf this) d p
                                   :: map (envelopeBody (feeOf this) d) pairs)) as same
    end.
    { apply again; [reflexivity | reflexivity | exact somePairs]. }
    split; [exact same |]. intros encode. now rewrite same.
  - intros txs signedTxs ids nodes body rest d carried.
    rewrite fromProtobuf_eq. simpl. rewrite carried. simpl.
    rewrite (makeTransactionData_payloadOfProtobuf d) by reflexivity.
    simpl. repeat split; intros ->; reflexivity.
Qed.

(** * The statements on the sample objects *)

Section Evaluation.
#[local] Existing Instance sdkZ.
#[local] Existing Instance contractSdkZ.

Lemma sdkZ_laws : SdkLaws sdkZ.
Proof. split; reflexivity. Qed.

(** The sample transaction is frozen and has the sample bodies. *)
Example sampleFrozen_bodies :
  frozen (super sampleFrozen) = true /\
  payload sampleFrozen = (Some [Some 7%Z; Some 8%Z], Some 2%Z) /\
  bodyCache (super sampleFrozen) = sampleBodies /\
  wireBodies sampleFrozen = Ok sampleBodies.
Proof. repeat split. Qed.

(** Once frozen, its setters throw and change nothing; a second [freeze]
    without re-freeze intent throws too. *)
Example sampleFrozen_setters :
  setTokenIds [IsId 1%Z] sampleFrozen = (Throw FrozenTransactionError, sampleFrozen) /\
  setAccountId (IsString "0.0.3") sampleFrozen = (Throw FrozenTransactionError, sampleFrozen) /\
  freeze [3%Z] 101%Z None false sampleFrozen = (Throw AlreadyFrozenError, sampleFrozen).
Proof. repeat split. Qed.

(** The setters on a newly constructed contract call; an amount below zero
    and a contract id below zero are rejected and nothing is written. *)
Example contractCall_setters :
  gas (_body (snd (setGas 75000%Z new_ContractExecuteTransaction))) = "75000" /\
  functionparameters (_body (snd (setFunction "f" None new_ContractExecuteTransaction))) =
    list_byte_of_string "f" /\
  hasContractid (_body (snd (setContractId 5%Z new_ContractExecuteTransaction))) = true /\
  setPayableAmount (-1)%Z new_ContractExecuteTransaction =
    (Throw (ImportedError "tinybarToString"), new_ContractExecuteTransaction) /\
  setContractId (-1)%Z new_ContractExecuteTransaction =
    (Throw (ImportedError "ContractId"), new_ContractExecuteTransaction) /\
  _doValidate new_ContractExecuteTransaction ["earlier"] =
    (Ok tt, ["earlier"; ".setContractId() required"]).
Proof. repeat split. Qed.

(** A text that is not an id: the setter throws and stores nothing, and so
    does the constructor. *)
Example malformed_text_rejected :
  setTokenIds [IsId 1%Z; IsString "garbage"] sampleBuilt =
    (Throw (ImportedError "TokenId.fromString"), sampleBuilt) /\
  setAccountId (IsString "0.0.x") sampleBuilt =
    (Throw (ImportedError "AccountId.fromString"), sampleBuilt) /\
  new_TokenDissociateTransaction malformedProps =
    Throw (ImportedError "TokenId.fromString").
Proof. repeat split. Qed.

(** Validation stops at the first id that does not match: on network 8 the
    account 9; on network 10 the token 12, after account 9 and token 7. *)
Example sampleMismatch_validated :
  validateChecksums sampleMismatch 8%Z [] =
    (Throw (InvalidChecksumError (OfAccount 9%Z)), [OfAccount 9%Z]) /\
  validateChecksums sampleMismatch 10%Z [] =
    (Throw (InvalidChecksumError (OfToken 12%Z)),
     [OfAccount 9%Z; OfToken 7%Z; OfToken 12%Z]) /\
  validateChecksums sampleMismatch 12%Z [] =
    (Ok tt, [OfAccount 9%Z; OfToken 7%Z; OfToken 12%Z]).
Proof. repeat split. Qed.

(** A body list that is empty, or whose first body is of another kind, is
    not rehydrated. *)
Example fromProtobuf_ill_formed :
  fromProtobuf [] [] [100%Z] [3%Z] [] = Throw TypeError /\
  fromProtobuf [] [] [100%Z] [3%Z] [otherBody; sampleBody 3] = Throw TypeError.
Proof. split; reflexivity. Qed.

(** C6 on a fresh transaction and a client with no nodes. *)
Lemma freeze_without_nodes_witness :
  let result :=
    Transaction_freeze (fun _ _ _ => Ok otherBody) [] 100%Z (new_Hbar 5) (Some 0%Z) false
                       new_Transaction in
  result = (Throw NoNodeIdsAvailable, new_Transaction) /\
  frozen (snd result) = false /\
  nodeIds (snd result) = nodeIds new_Transaction /\
  transactionIds (snd result) = transactionIds new_Transaction /\
  maxTransactionFee (snd result) = maxTransactionFee new_Transaction /\
  bodyCache (snd result) = bodyCache new_Transaction.
Proof.
  apply (freeze_without_nodes sdkZ (fun _ _ _ => Ok otherBody) 100%Z (new_Hbar 5)
           (Some 0%Z) false new_Transaction); reflexivity.
Defined.

(** C8 on two invocations that share the first body only. *)
Lemma fromProtobuf_first_body_only_witness :
  outcome_map payload (fromProtobuf [] [] [100%Z] [3%Z; 4%Z] sampleBodies) =
  outcome_map payload (fromProtobuf [1%Z] [2%Z] [] [9%Z] [sampleBody 3; otherBody]) /\
  outcome_map payload (fromProtobuf [] [] [100%Z] [3%Z; 4%Z] sampleBodies) =
  match sampleBodies !! 0%nat with
  | None => Throw TypeError
  | Some body =>
    match tokenDissociate body with
    | None => Throw TypeError
    | Some d => Ok (payloadOfProtobuf d)
    end
  end.
Proof.
  apply (fromProtobuf_first_body_only sdkZ
           [] [] [100%Z] [3%Z; 4%Z] sampleBodies
           [1%Z] [2%Z] [] [9%Z] [sampleBody 3; otherBody]).
  reflexivity.
Defined.

(** C2 on the sample transaction and its bodies. *)
Lemma rehydration_round_trip_witness :
  (exists this' : TokenDissociateTransaction,
      fromWire (module_init ∅) sampleBodies
               (transactionIds (super sampleFrozen)) (nodeIds (super sampleFrozen)) =
        Ok (IsTokenDissociate this') /\
      signedTransactions (super this') = [] /\
      wireBodies this' = Ok sampleBodies /\
      forall encode : ITransactionBody -> list Byte.byte,
        outcome_map (map encode) (wireBodies this') = Ok (map encode sampleBodies)) /\
  obind (fromProtobuf [] [] [100%Z] [3%Z; 4%Z] sampleBodies) makeTransactionData =
    Ok samplePayload.
Proof.
  split.
  - apply (proj1 (rehydration_round_trip sdkZ sdkZ_laws) ∅ sampleFrozen sampleBodies).
    + reflexivity.
    + discriminate.
  - apply (proj2 (rehydration_round_trip sdkZ sdkZ_laws)
             [] [] [100%Z] [3%Z; 4%Z] (sampleBody 3) [sampleBody 4] samplePayload).
    reflexivity.
Defined.

End Evaluation.

(** * Further properties of [TokenDissociateTransaction] *)

Section SetterCallFacts.
Context {sdk : Sdk}.

Lemma callSetter_eq (c : SetterCall) (this : TokenDissociateTransaction) :
  callSetter c this =
  if frozen (super this) then (Throw FrozenTransactionError, this)
  else match c with
       | CallSetTokenIds ids =>
         match omap tokenIdOf ids with
         | Ok stored => (Ok tt, with_tokenIds (Some stored) this)
         | Throw e => (Throw e, this)
         end
       | CallSetAccountId id =>
         match accountIdOf id with
         | Ok stored => (Ok tt, with_accountId (Some stored) this)
         | Throw e => (Throw e, this)
         end
       end.
Proof.
  destruct c; simpl; [rewrite setTokenIds_eq | rewrite setAccountId_eq];
    now destruct (frozen (super this)).
Qed.

(** The object a call leaves behind, field by field. *)
Lemma callSetter_leaves (c : SetterCall) (this : TokenDissociateTransaction) :
  snd (callSetter c this) =
  if frozen (super this) then this
  else {| super := super this;
          _tokenIds :=
            match storedTokenIds c with
            | Some stored => Some stored
            | None => _tokenIds this
            end;
          _accountId :=
            match storedAccountId c with
            | Some stored => Some stored
            | None => _accountId this
            end;
          _defaultMaxTransactionFee := _defaultMaxTransactionFee this |}.
Proof.
  rewrite callSetter_eq. destruct (frozen (super this)); [reflexivity |].
  destruct this as [base toks acc fee].
  destruct c as [ids | id]; simpl.
  - now destruct (omap tokenIdOf ids).
  - now destruct (accountIdOf id).
Qed.

Lemma noNullTokens_callSetter (c : SetterCall) (this : TokenDissociateTransaction) :
  noNullTokens this = true -> noNullTokens (snd (callSetter c this)) = true.
Proof.
  intros clean. rewrite callSetter_eq.
  destruct (frozen (super this)); [exact clean |].
  destruct c as [ids | id]; simpl.
  - destruct (omap tokenIdOf ids) as [stored |] eqn:converted; [| exact clean].
    unfold noNullTokens. simpl. now apply (omap_tokenIdOf_noNull ids).
  - now destruct (accountIdOf id).
Qed.

Lemma noNullTokens_built (this : TokenDissociateTransaction) :
  built this -> noNullTokens this = true.
Proof.
  induction 1 as [props this made | txs signedTxs ids nodes bodies this made
                 | c this _ IH | b this _ IH].
  - rewrite new_TokenDissociateTransaction_eq in made.
    destruct (props_tokenIds props) as [ids |]; simpl in made.
    + destruct (omap tokenIdOf ids) as [stored |] eqn:converted; simpl in made;
        [| discriminate].
      destruct (match props_accountId props with
                | Some id => outcome_map Some (accountIdOf id)
                | None => Ok None
                end); simpl in made; [| discriminate].
      injection made as <-. unfold noNullTokens. simpl.
      now apply (omap_tokenIdOf_noNull ids).
    + destruct (match props_accountId props with
                | Some id => outcome_map Some (accountIdOf id)
                | None => Ok None
                end); simpl in made; [| discriminate].
      now injection made as <-.
  - rewrite fromProtobuf_eq in made.
    destruct (bodies !! 0%nat) as [body |]; [| discriminate].
    destruct (tokenDissociate body) as [d |]; [| discriminate].
    injection made as <-. unfold noNullTokens, payloadOfProtobuf. simpl.
    destruct (tokens d) as [ts |]; [| reflexivity].
    induction ts as [| token ts IH]; simpl; auto.
  - now apply noNullTokens_callSetter.
  - exact IH.
Qed.

(** The token list in wire form, when no element is [null]. *)
Lemma omap_toProtobuf (ids : list (option TokenId)) :
  omap (fun tokenId : option TokenId =>
          match tokenId with
          | Some id => Ok (E := error EntityId) (TokenId_toProtobuf id)
          | None => Throw TypeError
          end) ids =
  if forallb (fun tokenId => negb (isNull tokenId)) ids
  then Ok (flat_map (fun tokenId =>
                       match tokenId with
                       | Some id => [TokenId_toProtobuf id]
                       | None => []
                       end) ids)
  else Throw TypeError.
Proof.
  induction ids as [| [id |] ids IH]; simpl; [reflexivity | | reflexivity].
  rewrite IH. now destruct (forallb _ ids).
Qed.

Lemma flat_map_toProtobuf_length (ids : list (option TokenId)) :
  forallb (fun tokenId => negb (isNull tokenId)) ids = true ->
  length (flat_map (fun tokenId : option TokenId =>
                      match tokenId with
                      | Some id => [TokenId_toProtobuf id]
                      | None => []
                      end) ids) = length ids.
Proof.
  induction ids as [| [id |] ids IH]; simpl; [reflexivity | | discriminate].
  intros clean. now rewrite IH.
Qed.

End SetterCallFacts.

(** X1.  [makeTransactionData] throws exactly when the token list holds a
    [null] element, and what it throws then is a [TypeError]; a [null] token
    list or account id never makes it throw. *)
Theorem makeTransactionData_throws_iff_null (sdk : Sdk)
    (this : TokenDissociateTransaction) :
  is_ok (makeTransactionData this) = noNullTokens this /\
  (forall e, makeTransactionData this = Throw e -> e = TypeError) /\
  (_tokenIds this = None ->
   makeTransactionData this =
   Ok {| tokens := None;
         account := match _accountId this with
                    | Some id => Some (AccountId_toProtobuf id)
                    | None => None
                    end |}).
Proof.
  unfold makeTransactionData, noNullTokens.
  destruct (_tokenIds this) as [ids |].
  - rewrite omap_toProtobuf.
    destruct (forallb _ ids); simpl; repeat split; intros; congruence.
  - simpl. repeat split; intros; congruence.
Qed.

(** X2.  On every object the class gives out (from the constructor or
    [fromProtobuf], through any setter calls and base-class operations)
    [makeTransactionData] returns: the [tokens] field is [null] exactly when
    [tokenIds] is and otherwise has as many elements, and the [account] field
    is [null] exactly when [accountId] is. *)
Theorem built_transaction_serializes (sdk : Sdk) (this : TokenDissociateTransaction) :
  built this ->
  exists d : ITokenDissociateTransactionBody,
    makeTransactionData this = Ok d /\
    (tokens d = None <-> tokenIds this = None) /\
    (account d = None <-> accountId this = None) /\
    (forall ids ts, tokenIds this = Some ids -> tokens d = Some ts ->
                    length ts = length ids).
Proof.
  intros reachable. apply noNullTokens_built in reachable.
  unfold noNullTokens, makeTransactionData, tokenIds, accountId in *.
  destruct (_tokenIds this) as [ids |].
  - rewrite omap_toProtobuf, reachable. simpl. eexists. split; [reflexivity |].
    simpl. repeat split; try discriminate.
    + destruct (_accountId this); [discriminate | reflexivity].
    + destruct (_accountId this); [discriminate | reflexivity].
    + intros ids' ts [= <-] [= <-]. now apply flat_map_toProtobuf_length.
  - simpl. eexists. split; [reflexivity |]. simpl. repeat split; try discriminate.
    + destruct (_accountId this); [discriminate | reflexivity].
    + destruct (_accountId this); [discriminate | reflexivity].
Qed.

(** X3.  The two setters commute whenever the transaction is frozen or the
    two calls return in one of the two orders: [setTokenIds] then
    [setAccountId] and [setAccountId] then [setTokenIds] end in the same
    outcome and the same object. *)
Theorem setters_commute (sdk : Sdk)
    (ids : list (IdLike TokenId)) (id : IdLike AccountId)
    (this : TokenDissociateTransaction) :
  frozen (super this) = true \/
  fst ((setTokenIds ids ;> setAccountId id) this) = Ok tt \/
  fst ((setAccountId id ;> setTokenIds ids) this) = Ok tt ->
  (setTokenIds ids ;> setAccountId id) this = (setAccountId id ;> setTokenIds ids) this.
Proof.
  unfold bind. rewrite !setTokenIds_eq, !setAccountId_eq.
  destruct (frozen (super this)) eqn:flag; [reflexivity |].
  destruct (omap tokenIdOf ids) as [stored |] eqn:tokensConverted,
           (accountIdOf id) as [account |] eqn:accountConverted;
    rewrite ?setTokenIds_eq, ?setAccountId_eq; simpl; rewrite ?flag;
    rewrite ?tokensConverted, ?accountConverted;
    intros [frozenNow | [returned | returned]];
    try discriminate; reflexivity.
Qed.

(** X4.  Whatever setter calls are made on a transaction, each failure
    caught: the base-class state (so the frozen flag) and the default fee are
    never changed; a frozen transaction is left exactly as it was; on one that
    is not frozen each payload field ends as the last call that stores
    something in it left it (a call that throws stores nothing), or as it was
    when no call stores anything in it. *)
Theorem setter_calls_and_freeze (sdk : Sdk)
    (calls : list SetterCall) (this : TokenDissociateTransaction) :
  super (callEach calls this) = super this /\
  _defaultMaxTransactionFee (callEach calls this) = _defaultMaxTransactionFee this /\
  if frozen (super this) then callEach calls this = this
  else
    _tokenIds (callEach calls this) =
      match lastStored storedTokenIds calls with
      | Some stored => Some stored
      | None => _tokenIds this
      end /\
    _accountId (callEach calls this) =
      match lastStored storedAccountId calls with
      | Some stored => Some stored
      | None => _accountId this
      end.
Proof.
  revert this. induction calls as [| c calls IH]; intros this; simpl.
  - destruct (frozen (super this)); repeat split.
  - specialize (IH (snd (callSetter c this))). rewrite callSetter_leaves in *.
    destruct (frozen (super this)) eqn:flag; simpl in *.
    + rewrite flag in IH. exact IH.
    + rewrite flag in IH. destruct IH as (base & fee & toks & acc).
      repeat split; try assumption; rewrite ?toks, ?acc;
        destruct (lastStored storedTokenIds calls),
                 (lastStored storedAccountId calls); reflexivity.
Qed.

Section WireFacts.
Context {sdk : Sdk}.

Lemma payloadOfProtobuf_tokens {inverse : SdkInverseLaws sdk} (ids : list (option TokenId)) :
  forallb (fun tokenId => negb (isNull tokenId)) ids = true ->
  map (fun token => Some (TokenId_clone (TokenId_fromProtobuf token)))
      (flat_map (fun tokenId : option TokenId =>
                   match tokenId with
                   | Some id => [TokenId_toProtobuf id]
                   | None => []
                   end) ids) = ids.
Proof.
  induction ids as [| [id |] ids IH]; simpl; [reflexivity | | discriminate].
  intros clean. now rewrite IH, TokenId_inverse.
Qed.

Lemma embeddedTokens_filter (ids : list (option TokenId)) :
  embeddedTokens (List.filter (fun tokenId => negb (isNull tokenId)) ids) =
  embeddedTokens ids.
Proof.
  unfold embeddedTokens.
  induction ids as [| [id |] ids IH]; simpl; [reflexivity | now rewrite IH | exact IH].
Qed.

End WireFacts.

(** X5.  Given that an id converted to its wire form and back is the id, a
    payload survives the wire: when [makeTransactionData] of a transaction
    returns, [fromProtobuf] applied to a body list whose first body carries
    that payload builds a transaction with the same [tokenIds] and
    [accountId], whatever the other arguments. *)
Theorem payload_survives_wire (sdk : Sdk) (inverse : SdkInverseLaws sdk)
    (this : TokenDissociateTransaction) (d : ITokenDissociateTransactionBody)
    txs signedTxs ids nodes (body : ITransactionBody) rest :
  makeTransactionData this = Ok d ->
  tokenDissociate body = Some d ->
  outcome_map payload (fromProtobuf txs signedTxs ids nodes (body :: rest)) =
  Ok (payload this).
Proof.
  intros made carried. rewrite fromProtobuf_eq. simpl. rewrite carried. simpl.
  f_equal. unfold makeTransactionData in made. unfold payload, payloadOfProtobuf.
  destruct (_tokenIds this) as [tokenIds |].
  - rewrite omap_toProtobuf in made.
    destruct (forallb _ tokenIds) eqn:clean; [| discriminate].
    simpl in made. injection made as <-. simpl.
    rewrite (payloadOfProtobuf_tokens tokenIds clean).
    destruct (_accountId this); [now rewrite AccountId_inverse | reflexivity].
  - simpl in made. injection made as <-. simpl.
    destruct (_accountId this); [now rewrite AccountId_inverse | reflexivity].
Qed.

(** X6.  [validateChecksums] passes over the [null] elements of the token
    list: it invokes the same validations and ends in the same outcome as on
    the transaction with those elements taken out. *)
Theorem validateChecksums_skips_null (sdk : Sdk)
    (this : TokenDissociateTransaction) (client : Client) (invoked : list EntityId) :
  validateChecksums this client invoked =
  validateChecksums (withoutNullTokens this) client invoked.
Proof.
  rewrite !validateChecksums_eq. f_equal.
  unfold embeddedIds, withoutNullTokens. simpl.
  destruct (_tokenIds this) as [ids |]; [| reflexivity].
  now rewrite embeddedTokens_filter.
Qed.

(** X7.  The account id is validated before any token: when its checksum does
    not match, [validateChecksums] fails with [InvalidChecksumError] naming
    the account id and no token has been validated, whatever the token list
    is. *)
Theorem validateChecksums_account_first (sdk : Sdk)
    (this : TokenDissociateTransaction) (a : AccountId) (client : Client)
    (invoked : list EntityId) :
  _accountId this = Some a ->
  AccountId_checksumMatches a client = false ->
  validateChecksums this client invoked =
  (Throw (InvalidChecksumError (OfAccount a)), invoked ++ [OfAccount a]).
Proof.
  intros account mismatch. rewrite validateChecksums_eq.
  unfold embeddedIds. rewrite account. simpl.
  rewrite validated_cons. simpl. now rewrite mismatch.
Qed.

(** X8.  Loading the module changes the registry at the tag
    ["tokenDissociate"] only: a constructor registered there before is
    replaced, every other tag keeps its constructor, and loading the module a
    second time changes nothing. *)
Theorem module_init_registry (sdk : Sdk) (registry : gmap string FromProtobuf) :
  (forall tag : string,
      tag <> "tokenDissociate" ->
      module_init registry !! tag = registry !! tag) /\
  (forall earlier : FromProtobuf,
      module_init (<["tokenDissociate" := earlier]> registry) = module_init registry) /\
  module_init (module_init registry) = module_init registry /\
  dom (module_init registry) = {["tokenDissociate"]} ∪ dom registry.
Proof.
  unfold module_init. repeat split.
  - intros tag other. now apply lookup_insert_ne.
  - intros earlier. apply insert_insert_eq.
  - apply insert_insert_eq.
  - apply dom_insert_L.
Qed.

(** * Further properties of [ContractExecuteTransaction] *)

Section BuilderCallFacts.
Context {csdk : ContractSdk}.

Lemma chained_nil (this : ContractExecuteTransaction) : chained [] this = this.
Proof. now destruct this as [flag inner []]. Qed.

(** One call: it throws and leaves the object, or returns having written its
    field. *)
Lemma callBuilder_eq (c : BuilderCall) (this : ContractExecuteTransaction) :
  callBuilder c this =
  match thrownBy c with
  | Some e => (Throw e, this)
  | None => (Ok tt, chained [c] this)
  end.
Proof.
  destruct this as [flag inner [g a f cid]].
  destruct c as [g' | a' | name [params |] | c']; simpl; try reflexivity.
  - unfold setPayableAmount, bind, lift, tinybarToString, chained. simpl.
    now destruct (Tinybar_text a').
  - unfold setContractId, bind, lift, new_ContractId, chained. simpl.
    now destruct (ContractId_parse c').
Qed.

Lemma chained_cons (c : BuilderCall) calls (this : ContractExecuteTransaction) :
  chained calls (chained [c] this) = chained (c :: calls) this.
Proof.
  unfold chained. simpl.
  destruct (lastWrite writtenGas calls), (lastWrite writtenAmount calls),
           (lastWrite writtenFunctionparameters calls),
           (lastWrite writtenContractid calls);
    simpl; try reflexivity;
    destruct (writtenContractid c); reflexivity.
Qed.

Lemma chain_eq calls (this : ContractExecuteTransaction) :
  chain calls this =
  (match firstThrown calls with
   | Some e => Throw e
   | None => Ok tt
   end,
   chained (returning calls) this).
Proof.
  revert this. induction calls as [| c calls IH]; intros this.
  - simpl. unfold ret. now rewrite chained_nil.
  - unfold chain in *. simpl. unfold bind. rewrite callBuilder_eq.
    destruct (thrownBy c) as [e |].
    + now rewrite chained_nil.
    + rewrite IH. now rewrite chained_cons.
Qed.


Lemma returning_return calls :
  Forall (fun c => thrownBy c = None) (returning calls).
Proof.
  induction calls as [| c calls IH]; simpl; [constructor |].
  destruct (thrownBy c) eqn:thrown; constructor; assumption.
Qed.

Lemma lastWrite_contractid calls :
  Forall (fun c => thrownBy c = None) calls ->
  (exists v, lastWrite writtenContractid calls = Some v) <->
  (exists c, In (CallSetContractId c) calls).
Proof.
  induction 1 as [| c calls returns _ IH]; simpl.
  - split; intros [x absurd]; [discriminate | contradiction].
  - destruct (lastWrite writtenContractid calls) as [v |].
    + split; [| eauto]. intros _.
      destruct (proj1 IH (ex_intro _ v eq_refl)) as [c' member]. eauto.
    + split.
      * intros [v written]. destruct c; try discriminate. eauto.
      * intros [c' [-> | member]].
        -- simpl in *. unfold new_ContractId in returns.
           destruct (ContractId_parse c'); [eauto | discriminate].
        -- destruct (proj2 IH (ex_intro _ c' member)) as [v none]. discriminate.
Qed.

End BuilderCallFacts.


(** X10.  A contract id, once set, stays set: after a chain of setter calls
    the body has a contract id exactly when it had one before or a call of
    [setContractId] in the chain returned (it is among the calls before the
    first that throws).  So on a newly constructed transaction [_doValidate]
    reports nothing exactly when such a call returned, and reports
    [".setContractId() required"], once, otherwise; gas, amount and function
    are never asked for. *)
Theorem builder_chain_validates (csdk : ContractSdk) (calls : list BuilderCall) :
  (forall this : ContractExecuteTransaction,
      hasContractid (_body (snd (chain calls this))) = true <->
      hasContractid (_body this) = true \/
      exists c, In (CallSetContractId c) (returning calls)) /\
  (snd (_doValidate (snd (chain calls new_ContractExecuteTransaction)) []) = [] <->
   exists c, In (CallSetContractId c) (returning calls)) /\
  (snd (_doValidate (snd (chain calls new_ContractExecuteTransaction)) []) = [] \/
   snd (_doValidate (snd (chain calls new_ContractExecuteTransaction)) []) =
     [".setContractId() required"]).
Proof.
  assert (forall this : ContractExecuteTransaction,
             hasContractid (_body (snd (chain calls this))) = true <->
             hasContractid (_body this) = true \/
             exists c, In (CallSetContractId c) (returning calls)) as kept.
  { intros this.
    rewrite chain_eq, <- (lastWrite_contractid _ (returning_return calls)).
    unfold hasContractid, chained. simpl.
    destruct (lastWrite writtenContractid (returning calls)) as [v |].
    - split; eauto.
    - destruct (contractid (_body this)); split; auto.
      intros [? | [v ?]]; discriminate. }
  split; [exact kept |].
  specialize (kept new_ContractExecuteTransaction).
  unfold _doValidate.
  destruct (hasContractid (_body (snd (chain calls new_ContractExecuteTransaction))));
    simpl in *.
  - split; [| now left]. split; [| reflexivity].
    intros _. destruct (proj1 kept eq_refl) as [? | ?]; [discriminate | assumption].
  - split; [| now right]. split; [discriminate |].
    intros called. assert (false = true) by (apply kept; now right). discriminate.
Qed.

(** * The further statements on the sample objects *)

Section FurtherEvaluation.
#[local] Existing Instance sdkZ.
#[local] Existing Instance contractSdkZ.

Lemma sdkZ_inverse : SdkInverseLaws sdkZ.
Proof. split; reflexivity. Qed.

(** The constructor gives [sampleBuilt] for the sample props. *)
Example sampleBuilt_constructed : new_TokenDissociateTransaction sampleProps = Ok sampleBuilt.
Proof. reflexivity. Qed.

(** A [null] element makes [makeTransactionData] throw, and is passed over
    by [validateChecksums]. *)
Example sampleMismatch_null_element :
  makeTransactionData sampleMismatch = Throw TypeError /\
  _tokenIds (withoutNullTokens sampleMismatch) = Some [Some 7%Z; Some 12%Z].
Proof. split; reflexivity. Qed.

(** The chain of the contract example passes validation; without its first
    call it does not; a later [setGas] wins; and a chain whose [setContractId]
    is rejected stops there, what came before being written. *)
Example exampleCalls_validated :
  snd (_doValidate (snd (chain exampleCalls new_ContractExecuteTransaction)) []) = [] /\
  snd (_doValidate (snd (chain (tail exampleCalls) new_ContractExecuteTransaction)) []) =
    [".setContractId() required"] /\
  gas (_body (snd (chain (exampleCalls ++ [CallSetGas 1%Z])
                         new_ContractExecuteTransaction))) = "1" /\
  fst (chain [CallSetGas 7%Z; CallSetContractId (-1)%Z; CallSetGas 9%Z]
             new_ContractExecuteTransaction) = Throw (ImportedError "ContractId") /\
  _body (snd (chain [CallSetGas 7%Z; CallSetContractId (-1)%Z; CallSetGas 9%Z]
                    new_ContractExecuteTransaction)) =
    {| gas := "7"; amount := "0"; functionparameters := []; contractid := None |}.
Proof. repeat split. Qed.

(** The two orders differ when a text is rejected: the account id is stored
    only when [setAccountId] is called first. *)
Example setters_order_matters :
  _accountId (snd ((setTokenIds [IsString "garbage"] ;> setAccountId (IsId 3%Z))
                     sampleBuilt)) = Some 2%Z /\
  _accountId (snd ((setAccountId (IsId 3%Z) ;> setTokenIds [IsString "garbage"])
                     sampleBuilt)) = Some 3%Z.
Proof. split; reflexivity. Qed.

(** X3 on the constructed sample, both calls returning. *)
Lemma setters_commute_witness :
  (setTokenIds [IsString "0.0.9"] ;> setAccountId (IsId 3%Z)) sampleBuilt =
  (setAccountId (IsId 3%Z) ;> setTokenIds [IsString "0.0.9"]) sampleBuilt.
Proof.
  apply (setters_commute sdkZ [IsString "0.0.9"] (IsId 3%Z) sampleBuilt).
  right. left. reflexivity.
Defined.

(** X2 on the constructed sample after one more setter call. *)
Lemma built_transaction_serializes_witness :
  exists d : ITokenDissociateTransactionBody,
    makeTransactionData (snd (callSetter (CallSetAccountId (IsString "0.0.3")) sampleBuilt)) =
      Ok d /\
    (tokens d = None <->
     tokenIds (snd (callSetter (CallSetAccountId (IsString "0.0.3")) sampleBuilt)) = None) /\
    (account d = None <->
     accountId (snd (callSetter (CallSetAccountId (IsString "0.0.3")) sampleBuilt)) = None) /\
    (forall ids ts,
        tokenIds (snd (callSetter (CallSetAccountId (IsString "0.0.3")) sampleBuilt)) =
          Some ids ->
        tokens d = Some ts -> length ts = length ids).
Proof.
  apply (built_transaction_serializes sdkZ).
  apply built_call. apply (built_new sampleProps). reflexivity.
Defined.

(** X5 on the constructed sample and a body list that carries its payload. *)
Lemma payload_survives_wire_witness :
  outcome_map payload (fromProtobuf [] [] [100%Z] [3%Z] [sampleBody 3; otherBody]) =
  Ok (payload sampleBuilt).
Proof.
  apply (payload_survives_wire sdkZ sdkZ_inverse sampleBuilt samplePayload
           [] [] [100%Z] [3%Z] (sampleBody 3) [otherBody]); reflexivity.
Defined.

(** X7 on the sample whose account id does not match network 8. *)
Lemma validateChecksums_account_first_witness :
  validateChecksums sampleMismatch 8%Z [] =
  (Throw (InvalidChecksumError (OfAccount 9%Z)), [] ++ [OfAccount 9%Z]).
Proof.
  apply (validateChecksums_account_first sdkZ sampleMismatch 9%Z 8%Z []); reflexivity.
Defined.

End FurtherEvaluation.
